(** * django-initd: the daemon lifecycle of [initd.Initd]

    A shallow embedding of [initd.py]: the four control verbs [start],
    [stop], [restart] and [status], the detach procedure [become_daemon],
    the pid file, and the two signal handlers that [start] installs.

    The program is a sequence of system calls, so it is embedded in a
    state, writer and error monad: the state is the part of the operating
    system the code reads and writes ([world]), the writer collects every
    observable action in program order ([event]), and the error part
    carries Python exceptions, [os._exit], death by signal and
    non-termination.

    Conventions of the embedding:
    - exceptions follow Python 3, where [IOError] is [OSError];
    - a path names the same file before and after [os.chdir];
    - [os.kill] addresses another process than the caller, which the
      caller is allowed to signal; a pid that is not a C [int] is
      refused before the kernel sees it;
    - a string is a sequence of code points below 256, and the limit
      that an interpreter may put on the number of digits of [int()]
      and [str()] is lifted;
    - the host callbacks [run] and [exit] are opaque: each call returns,
      raises or hangs, as the environment decides;
    - signals reach the daemon before a test of the loop condition or
      during a call of [run()], and a handler runs to its end before the
      next signal is delivered; an exception that a handler raises
      during [run()] appears inside [run()], which may catch it. *)

From Stdlib Require Import ZArith String Ascii List Bool Lia.
From Stdlib Require Import DecimalString DecimalZ.
From stdpp Require Import gmap strings.

Local Open Scope Z_scope.
Local Open Scope string_scope.
Local Open Scope list_scope.

(** ** Python values used by the module *)

Module Py.

(** The exceptions that occur in [initd.py].  [IOError] is [OSError]
    (Python 3); [OSError] carries [errno], and [OSErrorOn] is the
    [OSError] of a call that names a file ([open], [os.remove]), with
    that file name.  [Other] stands for any further class derived from
    [Exception]. *)
Inductive exn : Type :=
| OSError (errno : Z)
| OSErrorOn (errno : Z) (filename : string)
| ValueError
| KeyError
| OverflowError (msg : string)
| Other (name : string)
| SystemExit (code : Z)
| KeyboardInterrupt.

(** [e.errno] when [isinstance(e, OSError)]: what [except OSError as e]
    and [except IOError as e] bind. *)
Definition errno_of (e : exn) : option Z :=
  match e with
  | OSError n | OSErrorOn n _ => Some n
  | _ => None
  end.

(** [isinstance(e, Exception)]: what [except Exception] catches. *)
Definition is_Exception (e : exn) : bool :=
  match e with
  | SystemExit _ | KeyboardInterrupt => false
  | _ => true
  end.

Definition ENOENT : Z := 2.
Definition ESRCH : Z := 3.
Definition EPERM : Z := 1.
Definition EACCES : Z := 13.
Definition EAGAIN : Z := 11.

(** The values of a C [int], the type of a pid in [os.kill]. *)
Definition fits_c_int (n : Z) : bool :=
  ((- 2 ^ 31 <=? n) && (n <=? 2 ^ 31 - 1))%Z.

Definition SIGTERM : Z := 15.
Definition SIGALRM : Z := 14.

(** [str(n)] for an [int]. *)
Definition str (n : Z) : string := NilEmpty.string_of_int (Z.to_int n).

(** The white space that [int()] skips around the literal.  A string is
    a sequence of code points below 256: of those, [int()] skips the
    ASCII white space 9-13 and 32, and the two others that are Unicode
    white space, U+0085 and U+00A0. *)
Definition is_space (c : ascii) : bool :=
  let n := nat_of_ascii c in
  ((9 <=? n)%nat && (n <=? 13)%nat) || (n =? 32)%nat
  || (n =? 133)%nat || (n =? 160)%nat.

Definition is_digit (c : ascii) : bool :=
  let n := nat_of_ascii c in (48 <=? n)%nat && (n <=? 57)%nat.

Fixpoint lstrip (s : list ascii) : list ascii :=
  match s with
  | c :: s' => if is_space c then lstrip s' else s
  | [] => []
  end.

Definition strip (s : list ascii) : list ascii :=
  rev (lstrip (rev (lstrip s))).

(** Digits with single underscores between them (PEP 515); the result
    is the digits alone. *)
Fixpoint digits (after_digit : bool) (s : list ascii) : option (list ascii) :=
  match s with
  | [] => if after_digit then Some [] else None
  | c :: s' =>
      if is_digit c then option_map (cons c) (digits true s')
      else if Ascii.eqb c "_" && after_digit then digits false s'
      else None
  end.

Definition unsigned (s : list ascii) : option Z :=
  match digits false s with
  | Some ds => option_map Z.of_uint (NilEmpty.uint_of_string (string_of_list_ascii ds))
  | None => None
  end.

(** [int(s)] for a [str], base 10: surrounding white space, an optional
    sign, digits.  [None] is [ValueError]. *)
Definition int (s : string) : option Z :=
  match strip (list_ascii_of_string s) with
  | c :: s' =>
      if Ascii.eqb c "-" then option_map Z.opp (unsigned s')
      else if Ascii.eqb c "+" then unsigned s'
      else unsigned (c :: s')
  | [] => None
  end.

End Py.

(** ** The operating system as the module sees it *)

(** A host callback is opaque; what a call of it does is supplied by the
    environment ([cb_result]). *)
Variant callback : Type := Callable.

Inductive cb_result : Type :=
| Returns
| Raises (e : Py.exn)
| Hangs.

(** What happens around the process while it runs: a termination signal
    arrives (with what the [exit] callback does if the handler calls it),
    the armed alarm expires, a file is unlinked by someone else, another
    process disappears. *)
Inductive env_event : Type :=
| SigTerm (exit_result : cb_result)
| AlarmExpires
| Unlink (path : string)
| ProcGone (p : Z).

(** One pass of the daemon's loop: the events that arrive before the
    loop condition is read, the events that arrive while [run()] executes,
    what that call of [run()] does in the end, and which of the
    exceptions that a signal handler raises inside it the call catches
    and survives (a [try] of its own around the interrupted code). *)
Record iteration : Type := MkIteration {
  before : list env_event;
  during : list env_event;
  outcome : cb_result;
  catches : Py.exn -> bool
}.

(** A pass whose [run()] has no [try] around the code that a signal
    interrupts. *)
Definition Iteration (b d : list env_event) (o : cb_result) : iteration :=
  MkIteration b d o (fun _ => false).

Variant term_disposition : Type :=
| TermDefault
| TermHandler (exit : option callback).

Variant alrm_disposition : Type :=
| AlrmDefault
| AlrmHandler.

(** The state of the process that executes the verb. [running] is the
    cell [running[0]] that the loop and [cb_term_handler] share. *)
Record process : Type := Process {
  pid : Z;
  uid : Z;
  gid : Z;
  cwd : string;
  mask : Z;
  stdio : option (string * string);
  sigterm : term_disposition;
  sigalrm : alrm_disposition;
  alarm : option Z;
  running : bool
}.

(** [alive] are the pids of the other processes, those that [os.kill]
    reaches; [forks] are the kernel's answers to the successive
    [os.fork()] calls ([Some c]: a child with pid [c], [None]: failure);
    [script] is what the environment and [run()] do on each pass of the
    loop, and [ticks] what happens during each [time.sleep(0.5)] of
    [stop].  After a finite [script] the environment is silent and
    [run()] returns. *)
Record world : Type := World {
  posix : bool;
  fs : gmap string string;
  readonly : gset string;
  alive : gset Z;
  passwd : gmap string (Z * Z);
  forks : list (option Z);
  script : list iteration;
  ticks : list (list env_event);
  proc : process
}.

Definition set_proc (f : process -> process) (w : world) : world :=
  World (posix w) (fs w) (readonly w) (alive w) (passwd w) (forks w)
        (script w) (ticks w) (f (proc w)).
Definition set_fs (f : gmap string string -> gmap string string) (w : world) : world :=
  World (posix w) (f (fs w)) (readonly w) (alive w) (passwd w) (forks w)
        (script w) (ticks w) (proc w).
Definition set_alive (f : gset Z -> gset Z) (w : world) : world :=
  World (posix w) (fs w) (readonly w) (f (alive w)) (passwd w) (forks w)
        (script w) (ticks w) (proc w).
Definition set_forks (l : list (option Z)) (w : world) : world :=
  World (posix w) (fs w) (readonly w) (alive w) (passwd w) l
        (script w) (ticks w) (proc w).

Definition with_pid (n : Z) (p : process) : process :=
  Process n (uid p) (gid p) (cwd p) (mask p) (stdio p) (sigterm p) (sigalrm p) (alarm p) (running p).
Definition with_uid (n : Z) (p : process) : process :=
  Process (pid p) n (gid p) (cwd p) (mask p) (stdio p) (sigterm p) (sigalrm p) (alarm p) (running p).
Definition with_gid (n : Z) (p : process) : process :=
  Process (pid p) (uid p) n (cwd p) (mask p) (stdio p) (sigterm p) (sigalrm p) (alarm p) (running p).
Definition with_cwd (d : string) (p : process) : process :=
  Process (pid p) (uid p) (gid p) d (mask p) (stdio p) (sigterm p) (sigalrm p) (alarm p) (running p).
Definition with_mask (m : Z) (p : process) : process :=
  Process (pid p) (uid p) (gid p) (cwd p) m (stdio p) (sigterm p) (sigalrm p) (alarm p) (running p).
Definition with_stdio (o : option (string * string)) (p : process) : process :=
  Process (pid p) (uid p) (gid p) (cwd p) (mask p) o (sigterm p) (sigalrm p) (alarm p) (running p).
Definition with_sigterm (d : term_disposition) (p : process) : process :=
  Process (pid p) (uid p) (gid p) (cwd p) (mask p) (stdio p) d (sigalrm p) (alarm p) (running p).
Definition with_sigalrm (d : alrm_disposition) (p : process) : process :=
  Process (pid p) (uid p) (gid p) (cwd p) (mask p) (stdio p) (sigterm p) d (alarm p) (running p).
Definition with_alarm (a : option Z) (p : process) : process :=
  Process (pid p) (uid p) (gid p) (cwd p) (mask p) (stdio p) (sigterm p) (sigalrm p) a (running p).
Definition with_running (b : bool) (p : process) : process :=
  Process (pid p) (uid p) (gid p) (cwd p) (mask p) (stdio p) (sigterm p) (sigalrm p) (alarm p) b.

(** ** Observable actions *)

Inductive level : Type := DEBUG | INFO | WARNING | ERROR.

Inductive event : Type :=
| Print (s : string)
| PrintErr (s : string)
| Flush
| Log (lvl : level) (msg : string)
| Signalled (p sig : Z)
| Slept
| SetGid (g : Z)
| SetUid (u : Z)
| Forked (parent child : Z)
| SetSid
| ChDir (d : string)
| Umask (m : Z)
| Redirected (out err : string)
| Wrote (path content : string)
| Removed (path : string)
| Installed (sig : Z)
| AlarmSet (secs : Z)
| FlagCleared
| LoopTest (b : bool)
| CalledRun
| CalledExit.

(** ** The monad *)

Inductive result (A : Type) : Type :=
| Ok (a : A)
| Raise (e : Py.exn)
| OsExit (code : Z)
| Killed (sig : Z)
| Diverge.
Arguments Ok {A} a.
Arguments Raise {A} e.
Arguments OsExit {A} code.
Arguments Killed {A} sig.
Arguments Diverge {A}.

Definition M (A : Type) : Type := world -> result A * world * list event.

Definition ret {A} (a : A) : M A := fun w => (Ok a, w, []).

Definition bind {A B} (m : M A) (f : A -> M B) : M B :=
  fun w =>
    match m w with
    | (Ok a, w1, t1) => let '(r, w2, t2) := f a w1 in (r, w2, t1 ++ t2)
    | (Raise e, w1, t1) => (Raise e, w1, t1)
    | (OsExit c, w1, t1) => (OsExit c, w1, t1)
    | (Killed s, w1, t1) => (Killed s, w1, t1)
    | (Diverge, w1, t1) => (Diverge, w1, t1)
    end.

Declare Scope py_scope.
Delimit Scope py_scope with py.
Notation "x <- m ;; k" := (bind m (fun x => k))
  (at level 100, m at next level, k at level 200, right associativity) : py_scope.
Notation "m ;; k" := (bind m (fun _ => k))
  (at level 100, k at level 200, right associativity) : py_scope.
Local Open Scope py_scope.

Definition raise {A} (e : Py.exn) : M A := fun w => (Raise e, w, []).
Definition diverge {A} : M A := fun w => (Diverge, w, []).
Definition emit (ev : event) : M unit := fun w => (Ok tt, w, [ev]).
Definition gets {A} (f : world -> A) : M A := fun w => (Ok (f w), w, []).
Definition modify (f : world -> world) : M unit := fun w => (Ok tt, f w, []).

(** [try: m except <the classes h accepts>: h e]. *)
Definition try_except {A} (m : M A) (h : Py.exn -> option (M A)) : M A :=
  fun w =>
    match m w with
    | (Raise e, w1, t1) =>
        match h e with
        | Some k => let '(r, w2, t2) := k w1 in (r, w2, t1 ++ t2)
        | None => (Raise e, w1, t1)
        end
    | other => other
    end.

(** [try: m finally: fin]: an exception of [fin] replaces that of [m];
    nothing runs after [os._exit], a fatal signal, or in a computation
    that does not end. *)
Definition try_finally {A} (m : M A) (fin : M unit) : M A :=
  fun w =>
    match m w with
    | (Ok a, w1, t1) =>
        let '(r, w2, t2) := fin w1 in
        (match r with
         | Ok _ => Ok a | Raise e => Raise e | OsExit c => OsExit c
         | Killed s => Killed s | Diverge => Diverge
         end, w2, t1 ++ t2)
    | (Raise e, w1, t1) =>
        let '(r, w2, t2) := fin w1 in
        (match r with
         | Ok _ => Raise e | Raise e' => Raise e' | OsExit c => OsExit c
         | Killed s => Killed s | Diverge => Diverge
         end, w2, t1 ++ t2)
    | other => other
    end.

(** ** System calls and library calls *)

Definition strerror (n : Z) : string :=
  if (n =? Py.ENOENT)%Z then "No such file or directory"
  else if (n =? Py.ESRCH)%Z then "No such process"
  else if (n =? Py.EPERM)%Z then "Operation not permitted"
  else if (n =? Py.EACCES)%Z then "Permission denied"
  else if (n =? Py.EAGAIN)%Z then "Resource temporarily unavailable"
  else "Unknown error".

(** [str(e)] for an exception.  The file name of an [OSError] is shown
    as [repr] shows a name without quotes, backslashes or control
    characters. *)
Definition exn_str (e : Py.exn) : string :=
  match e with
  | Py.OSError n => "[Errno " +:+ Py.str n +:+ "] " +:+ strerror n
  | Py.OSErrorOn n f =>
      "[Errno " +:+ Py.str n +:+ "] " +:+ strerror n +:+ ": '" +:+ f +:+ "'"
  | Py.OverflowError msg => msg
  | Py.ValueError => "invalid literal for int() with base 10"
  | Py.KeyError => "getpwnam(): name not found"
  | Py.Other name => name
  | Py.SystemExit c => Py.str c
  | Py.KeyboardInterrupt => ""
  end.

Definition nl : string := String (ascii_of_nat 10) "".

Definition print (s : string) : M unit := emit (Print s).
Definition flush : M unit := emit Flush.
Definition log (lvl : level) (msg : string) : M unit := emit (Log lvl msg).
Definition sys_exit {A} (code : Z) : M A := raise (Py.SystemExit code).
Definition os__exit {A} (code : Z) : M A := fun w => (OsExit code, w, []).

(** [os.path.exists(p)]. *)
Definition path_exists (p : string) : M bool :=
  gets (fun w => bool_decide (is_Some (fs w !! p))).

(** [open(p, 'r').read()]. *)
Definition read_file (p : string) : M string :=
  fun w =>
    match fs w !! p with
    | Some s => (Ok s, w, [])
    | None => (Raise (Py.OSErrorOn Py.ENOENT p), w, [])
    end.

(** [open(p, 'w').write(s)]: the file is created or truncated. *)
Definition write_file (p s : string) : M unit :=
  fun w =>
    if bool_decide (p ∈ readonly w) then (Raise (Py.OSErrorOn Py.EACCES p), w, [])
    else (Ok tt, set_fs <[p:=s]> w, [Wrote p s]).

(** [os.remove(p)]: fails on a path that does not exist. *)
Definition os_remove (p : string) : M unit :=
  fun w =>
    match fs w !! p with
    | Some _ => (Ok tt, set_fs (delete p) w, [Removed p])
    | None => (Raise (Py.OSErrorOn Py.ENOENT p), w, [])
    end.

(** [int(s)]. *)
Definition py_int (s : string) : M Z :=
  match Py.int s with
  | Some n => ret n
  | None => raise Py.ValueError
  end.

(** The [OverflowError] of [os.kill] for a pid that is not a C [int]. *)
Definition overflow (p : Z) : Py.exn :=
  Py.OverflowError (if (p <? 0)%Z then "signed integer is less than minimum"
                    else "signed integer is greater than maximum").

(** [os.kill(p, sig)] towards another process; [sig = 0] only probes.
    A pid that no process has is refused with [ESRCH] when it is a C
    [int], and with [OverflowError] when it is not. *)
Definition os_kill (p sig : Z) : M unit :=
  fun w =>
    if bool_decide (p ∈ alive w) then (Ok tt, w, [Signalled p sig])
    else if Py.fits_c_int p then (Raise (Py.OSError Py.ESRCH), w, [])
    else (Raise (overflow p), w, []).

Definition os_getpid : M Z := gets (fun w => pid (proc w)).

(** [pwd.getpwnam(name)], reduced to [(pw_uid, pw_gid)]. *)
Definition getpwnam (name : string) : M (Z * Z) :=
  fun w =>
    match passwd w !! name with
    | Some pw => (Ok pw, w, [])
    | None => (Raise Py.KeyError, w, [])
    end.

(** [os.setgid], [os.setuid]: allowed to the superuser, or when nothing
    changes. *)
Definition os_setgid (g : Z) : M unit :=
  fun w =>
    if ((uid (proc w) =? 0) || (g =? gid (proc w)))%Z
    then (Ok tt, set_proc (with_gid g) w, [SetGid g])
    else (Raise (Py.OSError Py.EPERM), w, []).

Definition os_setuid (u : Z) : M unit :=
  fun w =>
    if ((uid (proc w) =? 0) || (u =? uid (proc w)))%Z
    then (Ok tt, set_proc (with_uid u) w, [SetUid u])
    else (Raise (Py.OSError Py.EPERM), w, []).

(** [os.fork()].  The embedding follows the child, where the call
    returns 0; the parent, where it returns the child's pid, leaves
    through the branch [if os.fork() > 0] of the caller. *)
Definition os_fork : M Z :=
  fun w =>
    match forks w with
    | Some c :: rest =>
        (Ok 0, set_forks rest (set_proc (with_pid c) w), [Forked (pid (proc w)) c])
    | _ => (Raise (Py.OSError Py.EAGAIN), set_forks (tail (forks w)) w, [])
    end.

Definition os_setsid : M unit := emit SetSid.
Definition os_chdir (d : string) : M unit :=
  modify (set_proc (with_cwd d));; emit (ChDir d).
Definition os_umask (m : Z) : M unit :=
  modify (set_proc (with_mask m));; emit (Umask m).

(** [open(p, 'a+')]: creates the file when it is missing. *)
Definition open_append (p : string) : M unit :=
  modify (fun w =>
    if String.eqb p "/dev/null" then w
    else match fs w !! p with
         | Some _ => w
         | None => set_fs <[p:=""]> w
         end).

Definition signal_sigterm (d : term_disposition) : M unit :=
  modify (set_proc (with_sigterm d));; emit (Installed Py.SIGTERM).
Definition signal_sigalrm (d : alrm_disposition) : M unit :=
  modify (set_proc (with_sigalrm d));; emit (Installed Py.SIGALRM).
Definition signal_alarm (secs : Z) : M unit :=
  modify (set_proc (with_alarm (Some secs)));; emit (AlarmSet secs).

(** A call of a host callback: it returns, raises, or never returns. *)
Definition call (ev : event) (r : cb_result) : M unit :=
  emit ev;;
  match r with
  | Returns => ret tt
  | Raises e => raise e
  | Hangs => diverge
  end.

(** ** [become_daemon] *)

Definition become_daemon_posix (our_home_dir out_log err_log : string) (umask : Z) : M unit :=
  try_except
    (r <- os_fork;; if (r >? 0)%Z then sys_exit 0 else ret tt)
    (fun e => match Py.errno_of e with
              | Some n =>
                  Some (emit (PrintErr ("fork #1 failed: (" +:+ Py.str n +:+ ") " +:+ strerror n +:+ nl));;
                        sys_exit 1)
              | _ => None
              end);;
  os_setsid;;
  os_chdir our_home_dir;;
  os_umask umask;;
  try_except
    (r <- os_fork;; if (r >? 0)%Z then os__exit 0 else ret tt)
    (fun e => match Py.errno_of e with
              | Some n =>
                  Some (emit (PrintErr ("fork #2 failed: (" +:+ Py.str n +:+ ") " +:+ strerror n +:+ nl));;
                        os__exit 1)
              | _ => None
              end);;
  open_append out_log;;
  open_append err_log;;
  modify (set_proc (with_stdio (Some (out_log, err_log))));;
  emit (Redirected out_log err_log).

Definition become_daemon_other (our_home_dir out_log err_log : string) (umask : Z) : M unit :=
  os_chdir our_home_dir;;
  os_umask umask;;
  (if String.eqb err_log "" then ret tt else open_append err_log);;
  (if String.eqb out_log "" then ret tt else open_append out_log);;
  modify (set_proc (with_stdio (Some (out_log, err_log))));;
  emit (Redirected out_log err_log).

(** The definition chosen at import time by [os.name == 'posix'].  With
    a Django that still ships [django.utils.daemonize] the module imports
    the function from there; the two definitions above are its copies. *)
Definition become_daemon (our_home_dir out_log err_log : string) (umask : Z) : M unit :=
  px <- gets posix;;
  if px then become_daemon_posix our_home_dir out_log err_log umask
  else become_daemon_other our_home_dir out_log err_log umask.

(** ** [class Initd] *)

Record Initd : Type := MkInitd {
  pid_file : string;
  workdir : string;
  umask : Z;
  stdout : string;
  stderr : string;
  user : string
}.

Definition _create_pid_file (self : Initd) : M unit :=
  try_except
    (n <- os_getpid;; write_file (pid_file self) (Py.str n))
    (fun e => match Py.errno_of e with
              | Some _ =>
                  Some (log ERROR (exn_str e);;
                        log ERROR "Failed to write to pid file, exiting now.";;
                        sys_exit 1)
              | _ => None
              end).

Definition cb_alrm_handler : M unit :=
  log WARNING "Could not exit gracefully.  Forcefully exiting.";;
  sys_exit 1.

(** The closure [cb_term_handler] of [start]; [r] is what this call of
    [exit()] does. *)
Definition cb_term_handler (exit : option callback) (r : cb_result) : M unit :=
  match exit with
  | Some _ => log DEBUG "Calling exit handler";; call CalledExit r
  | None => ret tt
  end;;
  modify (set_proc (with_running false));; emit FlagCleared;;
  signal_sigalrm AlrmHandler;;
  signal_alarm 5.

(** What an event of the environment does to the process. *)
Definition deliver (ev : env_event) : M unit :=
  match ev with
  | SigTerm r =>
      d <- gets (fun w => sigterm (proc w));;
      match d with
      | TermHandler exit => cb_term_handler exit r
      | TermDefault => fun w => (Killed Py.SIGTERM, w, [])
      end
  | AlarmExpires =>
      a <- gets (fun w => alarm (proc w));;
      match a with
      | None => ret tt
      | Some _ =>
          modify (set_proc (with_alarm None));;
          d <- gets (fun w => sigalrm (proc w));;
          match d with
          | AlrmHandler => cb_alrm_handler
          | AlrmDefault => fun w => (Killed Py.SIGALRM, w, [])
          end
      end
  | Unlink p => modify (set_fs (delete p))
  | ProcGone p => modify (set_alive (fun s => s ∖ {[p]}))
  end.

Fixpoint deliver_all (evs : list env_event) : M unit :=
  match evs with
  | [] => ret tt
  | ev :: evs' => deliver ev;; deliver_all evs'
  end.

(** The events that arrive while [run()] executes.  An exception that a
    handler raises appears inside [run()]: the call either catches it
    ([c]) and goes on, or is left by it. *)
Fixpoint deliver_during (c : Py.exn -> bool) (evs : list env_event) : M unit :=
  match evs with
  | [] => ret tt
  | ev :: evs' =>
      try_except (deliver ev) (fun e => if c e then Some (ret tt) else None);;
      deliver_during c evs'
  end.

(** [while running[0]: try: run() except Exception as exc:
    logger.exception(exc)], one [iteration] of the script per pass. *)
Fixpoint main_loop (sc : list iteration) : M unit :=
  match sc with
  | [] =>
      b <- gets (fun w => running (proc w));; emit (LoopTest b);;
      if b then diverge else ret tt
  | it :: sc' =>
      deliver_all (before it);;
      b <- gets (fun w => running (proc w));; emit (LoopTest b);;
      if b then
        try_except
          (emit CalledRun;; deliver_during (catches it) (during it);;
           match outcome it with
           | Returns => ret tt
           | Raises e => raise e
           | Hangs => diverge
           end)
          (fun e => if Py.is_Exception e then Some (log ERROR (exn_str e)) else None);;
        main_loop sc'
      else ret tt
  end.

Definition start (self : Initd) (exit : option callback) : M unit :=
  live <- (ex <- path_exists (pid_file self);;
           if ex then
             s <- read_file (pid_file self);;
             p <- py_int s;;
             try_except
               (os_kill p 0;; ret true)
               (fun e => match Py.errno_of e with Some _ => Some (ret false) | None => None end)
           else ret false);;
  if live then log WARNING "Daemon already running."
  else
    (if String.eqb (user self) "" then ret tt
     else
       pw <- try_except (getpwnam (user self))
               (fun e => match e with
                         | Py.KeyError =>
                             Some (log ERROR ("User " +:+ user self +:+ " not found.");;
                                   sys_exit 1)
                         | _ => None
                         end);;
       try_except
         (os_setgid (snd pw);; os_setuid (fst pw))
         (fun e => match Py.errno_of e with
                   | Some _ =>
                       Some (log ERROR ("Unable to change uid and gid, error is: " +:+ exn_str e);;
                             sys_exit 1)
                   | _ => None
                   end));;
    become_daemon (workdir self) (stdout self) (stderr self) (umask self);;
    _create_pid_file self;;
    modify (set_proc (with_running true));;
    signal_sigterm (TermHandler exit);;
    log INFO "Starting";;
    sc <- gets script;;
    try_finally
      (main_loop sc)
      (os_remove (pid_file self);; log INFO "Exiting.").

(** [while os.path.exists(self.pid_file)] of [stop], one element of
    [ticks] per [time.sleep(0.5)].  Once the environment is silent a pid
    file that is still there stays there. *)
Fixpoint poll (p : string) (tk : list (list env_event)) : M unit :=
  ex <- path_exists p;;
  if ex then
    print ".";; flush;; emit Slept;;
    match tk with
    | [] => diverge
    | evs :: tk' => deliver_all evs;; poll p tk'
    end
  else ret tt.

Definition stop (self : Initd) : M unit :=
  o <- try_except
         (s <- read_file (pid_file self);; p <- py_int s;; ret (Some p))
         (fun e => match Py.errno_of e with
                   | Some n =>
                       Some (if negb (n =? Py.ENOENT)%Z then raise e
                             else print ("Stopped." +:+ nl);; ret None)
                   | _ => None
                   end);;
  match o with
  | None => ret tt
  | Some p =>
      print "Stopping.";; flush;;
      sent <- try_except
                (os_kill p Py.SIGTERM;; ret true)
                (fun e => match Py.errno_of e with
                          | Some _ =>
                              Some (log WARNING ("Could not kill process: " +:+ exn_str e);;
                                    os_remove (pid_file self);;
                                    ret false)
                          | _ => None
                          end);;
      if sent then
        tk <- gets ticks;; poll (pid_file self) tk;; print nl
      else ret tt
  end.

Definition restart (self : Initd) (exit : option callback) : M unit :=
  ex <- path_exists (pid_file self);;
  (if ex then stop self else ret tt);;
  print ("Starting." +:+ nl);;
  start self exit.

Definition status (self : Initd) : M unit :=
  ex <- path_exists (pid_file self);;
  if ex then
    s <- read_file (pid_file self);;
    p <- py_int s;;
    live <- try_except
              (os_kill p 0;; ret true)
              (fun e => match Py.errno_of e with Some _ => Some (ret false) | None => None end);;
    if live then print ("Running." +:+ nl) else print ("Stopped." +:+ nl)
  else
    print ("Stopped." +:+ nl);; flush.

(** ** The composition that [restart] is specified as *)

(** If the pid file exists, [stop]; then, in all cases, [start]. *)
Definition stop_then_start (self : Initd) (exit : option callback) : M unit :=
  ex <- path_exists (pid_file self);;
  (if ex then stop self else ret tt);;
  start self exit.

(** ** Definitions used in the statements *)

(** Lines 105-117: is the recorded process alive? *)
Definition already_running (self : Initd) : M bool :=
  ex <- path_exists (pid_file self);;
  if ex then
    s <- read_file (pid_file self);;
    p <- py_int s;;
    try_except
      (os_kill p 0;; ret true)
      (fun e => match Py.errno_of e with Some _ => Some (ret false) | None => None end)
  else ret false.

(** Lines 119-133: [# Change uid]. *)
Definition change_uid (self : Initd) : M unit :=
  if String.eqb (user self) "" then ret tt
  else
    pw <- try_except (getpwnam (user self))
            (fun e => match e with
                      | Py.KeyError =>
                          Some (log ERROR ("User " +:+ user self +:+ " not found.");;
                                sys_exit 1)
                      | _ => None
                      end);;
    try_except
      (os_setgid (snd pw);; os_setuid (fst pw))
      (fun e => match Py.errno_of e with
                | Some _ =>
                    Some (log ERROR ("Unable to change uid and gid, error is: " +:+ exn_str e);;
                          sys_exit 1)
                | _ => None
                end).

(** Lines 174-184: the loop inside its [try ... finally]. *)
Definition run_loop (self : Initd) (sc : list iteration) : M unit :=
  try_finally (main_loop sc) (os_remove (pid_file self);; log INFO "Exiting.").

(** Lines 139-184: what the detached process does once the pid file is
    written. *)
Definition serve (self : Initd) (exit : option callback) : M unit :=
  modify (set_proc (with_running true));;
  signal_sigterm (TermHandler exit);;
  log INFO "Starting";;
  sc <- gets script;; run_loop self sc.

(** The exit status of the process when the verb it executes ends with
    [r]: an exception that nobody catches ends the interpreter with
    status 1, [SystemExit] with its code. *)
Definition exit_status (r : result unit) : option Z :=
  match r with
  | Ok _ => Some 0
  | Raise (Py.SystemExit c) => Some c
  | Raise _ => Some 1
  | OsExit c => Some c
  | Killed _ => None
  | Diverge => None
  end.

(** Counting the events of a kind in a trace. *)
Definition is_run (e : event) : bool :=
  match e with CalledRun => true | _ => false end.
Definition is_exit (e : event) : bool :=
  match e with CalledExit => true | _ => false end.
Definition is_error_log (e : event) : bool :=
  match e with Log ERROR _ => true | _ => false end.
Definition count (f : event -> bool) (t : list event) : nat :=
  length (List.filter f t).
Arguments count : simpl never.

Definition res {A} (x : result A * world * list event) : result A := fst (fst x).
Definition final {A} (x : result A * world * list event) : world := snd (fst x).
Definition trace {A} (x : result A * world * list event) : list event := snd x.

(** The actions that a delivered event may perform. *)
Definition handler_event (e : event) : bool :=
  match e with
  | Log _ _ | CalledExit | FlagCleared | Installed _ | AlarmSet _ => true
  | _ => false
  end.

Definition is_sigterm (ev : env_event) : bool :=
  match ev with SigTerm _ => true | _ => false end.

Definition sigterms (evs : list env_event) : nat :=
  length (List.filter is_sigterm evs).

Fixpoint script_sigterms (sc : list iteration) : nat :=
  match sc with
  | [] => 0
  | it :: sc' => sigterms (before it) + sigterms (during it) + script_sigterms sc'
  end.

(** [respects F cls m]: from every world [m] ends in a world related to
    it by [F], and performs only actions of the class [cls]. *)
Definition respects {A} (F : world -> world -> Prop) (cls : event -> bool)
    (m : M A) : Prop :=
  forall w, F w (final (m w)) /\ Forall (fun e => cls e = true) (trace (m w)).

(** The identity of the process and the environment's answers. *)
Record frame (w w' : world) : Prop := Frame {
  frame_pid : pid (proc w') = pid (proc w);
  frame_forks : forks w' = forks w;
  frame_posix : posix w' = posix w;
  frame_script : script w' = script w
}.

Definition loop_frame (w w' : world) : Prop :=
  frame w w' /\ sigterm (proc w') = sigterm (proc w).

(** The actions of the part of [start] that precedes the pid file. *)
Definition setup_event (e : event) : bool :=
  match e with
  | Signalled _ _ | Log _ _ | SetGid _ | SetUid _ | Forked _ _ | SetSid
  | ChDir _ | Umask _ | Redirected _ _ | PrintErr _ => true
  | _ => false
  end.

(** The actions of the part of [start] that follows the pid file. *)
Definition serve_event (e : event) : bool :=
  match e with
  | Log _ _ | CalledExit | FlagCleared | Installed _ | AlarmSet _
  | LoopTest _ | CalledRun | Removed _ => true
  | _ => false
  end.

(** One pass of the loop body: [try: run() except Exception ...]. *)
Definition run_once (it : iteration) : M unit :=
  try_except
    (emit CalledRun;; deliver_during (catches it) (during it);;
     match outcome it with
     | Returns => ret tt
     | Raises e => raise e
     | Hangs => diverge
     end)
    (fun e => if Py.is_Exception e then Some (log ERROR (exn_str e)) else None).

(** The test of the flag and what follows it in one pass. *)
Definition loop_body (it : iteration) (sc : list iteration) : M unit :=
  fun w =>
    if running (proc w) then
      let x := (run_once it;; main_loop sc) w in
      (res x, final x, LoopTest true :: trace x)
    else (Ok tt, w, [LoopTest false]).

Definition has_exit (t : list event) : bool := existsb is_exit t.

(** In a trace, every test of the flag that finds it cleared comes after
    a call of [exit()]; [seen] tells whether such a call precedes [t]. *)
Fixpoint stop_after_exit (seen : bool) (t : list event) : bool :=
  match t with
  | [] => true
  | CalledExit :: t' => stop_after_exit true t'
  | LoopTest false :: t' => seen && stop_after_exit seen t'
  | _ :: t' => stop_after_exit seen t'
  end.

(** Actions that are neither a call of [exit()] nor a test of the flag. *)
Definition neutral (e : event) : bool :=
  match e with
  | CalledExit | LoopTest _ => false
  | _ => true
  end.

Definition is_wrote (e : event) : bool :=
  match e with Wrote _ _ => true | _ => false end.

(** The configuration that [DaemonCommand] builds from its defaults, and
    a shell process on a POSIX system that calls a verb with it. *)
Definition daemon : Initd :=
  MkInitd "daemon_command.pid" "." 18 "/dev/null" "/dev/null" "".

Definition shell : process :=
  Process 100 1000 1000 "/srv/app" 18 None TermDefault AlrmDefault None false.

Definition host (files : gmap string string) (others : gset Z)
    (sc : list iteration) : world :=
  World true files ∅ others ∅ [Some 101; Some 102] sc [] shell.

Definition pass : iteration := Iteration [] [] Returns.

Definition handled : world :=
  set_proc (with_sigterm (TermHandler (Some Callable)))
    (set_proc (with_running true) (host ∅ ∅ [])).

(** A daemon whose pid file is unlinked during [run()], before the
    termination signal. *)
Definition unlinked : world :=
  host ∅ ∅ [Iteration [] [Unlink "daemon_command.pid"; SigTerm Returns] Returns].

(** A daemon whose [run()] calls [sys.exit()] on its third call. *)
Definition leaving : world :=
  host ∅ ∅ [pass; pass; Iteration [] [] (Raises (Py.SystemExit 0)); pass].

(** A daemon that receives two termination signals during one call of
    [run()]. *)
Definition signalled_twice : world :=
  host ∅ ∅ [Iteration [] [SigTerm Returns; SigTerm Returns] Returns].

(** What [status] may do: print, flush, probe with signal 0. *)
Definition status_event (e : event) : bool :=
  match e with
  | Print _ | Flush => true
  | Signalled _ sig => (sig =? 0)%Z
  | _ => false
  end.

(** Events of the environment that leave the file [p] in place and do
    not touch the waiting process. *)
Definition keeps (p : string) (ev : env_event) : bool :=
  match ev with
  | Unlink q => negb (String.eqb q p)
  | ProcGone _ => true
  | _ => false
  end.

(** What [stop] prints around one [time.sleep(0.5)]. *)
Definition dot : list event := [Print "."; Flush; Slept].

Fixpoint dots (n : nat) : list event :=
  match n with
  | O => []
  | S n' => dot ++ dots n'
  end.

(** A control process that waits in [stop] for the daemon 4711. *)
Definition waiting (tk : list (list env_event)) : world :=
  World true {["daemon_command.pid" := "4711"]} ∅ {[4711]} ∅ [] [] tk shell.

(** The configuration of a daemon that is to run as the user www. *)
Definition as_www : Initd :=
  MkInitd "daemon_command.pid" "." 18 "/dev/null" "/dev/null" "www".

Definition root_shell : process :=
  Process 100 0 0 "/srv/app" 18 None TermDefault AlrmDefault None false.

(** A host with one entry in its password database, seen from the
    process [pr]. *)
Definition with_users (pr : process) : world :=
  World true ∅ ∅ ∅ {["www" := (33, 33)]} [Some 101; Some 102] [] [] pr.

(** A host whose kernel answers the calls of [os.fork()] with [fk]. *)
Definition forking (px : bool) (fk : list (option Z)) (sc : list iteration) : world :=
  World px ∅ ∅ ∅ ∅ fk sc [] shell.

(** The daemon of [handled] with its pid file in place. *)
Definition serving : world :=
  set_fs <["daemon_command.pid" := "102"]> handled.

(** A host on which the pid file cannot be written. *)
Definition sealed : world :=
  World true ∅ {["daemon_command.pid"]} ∅ ∅ [Some 101; Some 102] [] [] shell.








(** ** Verbs on a pid file that is absent, stale, live or malformed *)

Section Verbs.

Variable self : Initd.
Variable exit : option callback.

Lemma path_exists_some (w : world) (s : string) :
  fs w !! pid_file self = Some s ->
  path_exists (pid_file self) w = (Ok true, w, []).
Proof.
  intros H. unfold path_exists, gets. rewrite bool_decide_eq_true_2; [reflexivity|].
  rewrite H. eauto.
Qed.


(** C2. When the pid file exists and names a pid that the probe
    [os.kill(pid, 0)] reaches, [start] logs the warning and returns:
    the only actions are the probe and the log record, and the world
    (process identity, working directory, streams, signal handlers,
    file system with the pid file, the loop's script) is the one it
    was called in. *)
Theorem start_already_running (w : world) (s : string) (p : Z) :
  fs w !! pid_file self = Some s ->
  Py.int s = Some p ->
  p ∈ alive w ->
  start self exit w
  = (Ok tt, w, [Signalled p 0; Log WARNING "Daemon already running."]).
Proof.
  intros Hf Hi Ha. unfold start, bind.
  rewrite (path_exists_some w s Hf).
  unfold read_file, py_int, try_except, os_kill. rewrite Hf, Hi. cbn.
  rewrite bool_decide_eq_true_2 by assumption. reflexivity.
Qed.

(** C7. Without a pid file [stop] prints "Stopped." and returns; no
    signal is sent and the world is unchanged. *)
Theorem stop_without_pid_file (w : world) :
  fs w !! pid_file self = None ->
  stop self w = (Ok tt, w, [Print ("Stopped." +:+ nl)]).
Proof.
  intros Hf. unfold stop, bind, try_except, read_file. rewrite Hf. reflexivity.
Qed.


(** C10. When the pid file exists and its contents are not an integer
    literal, [start], [stop] and [status] each end in the [ValueError]
    of [int()]: nothing has been printed, logged or signalled and the
    file is still there. *)
Theorem malformed_pid_file_raises (w : world) (s : string) :
  fs w !! pid_file self = Some s ->
  Py.int s = None ->
  start self exit w = (Raise Py.ValueError, w, [])
  /\ stop self w = (Raise Py.ValueError, w, [])
  /\ status self w = (Raise Py.ValueError, w, []).
Proof.
  intros Hf Hi. repeat split.
  - unfold start, bind. rewrite (path_exists_some w s Hf).
    unfold read_file, py_int. rewrite Hf, Hi. reflexivity.
  - unfold stop, bind, try_except, read_file, py_int. rewrite Hf, Hi. reflexivity.
  - unfold status, bind. rewrite (path_exists_some w s Hf).
    unfold read_file, py_int. rewrite Hf, Hi. reflexivity.
Qed.

(** C5. [restart] ends with the result and in the world of the
    composition "if the pid file exists, [stop]; then [start]", and
    performs the same actions, with the line "Starting." printed
    between the two verbs when the second is reached. *)
Theorem restart_is_stop_then_start (w : world) :
  fst (restart self exit w) = fst (stop_then_start self exit w)
  /\ exists ta tb,
       snd (stop_then_start self exit w) = ta ++ tb
       /\ (snd (restart self exit w) = ta ++ tb
           \/ snd (restart self exit w) = ta ++ Print ("Starting." +:+ nl) :: tb).
Proof.
  unfold restart, stop_then_start.
  generalize (start self exit), (stop self). intros st sp. unfold bind.
  destruct (path_exists (pid_file self) w) as [[[b| | | |] w1] t1]; cbn;
    try (split; [reflexivity | exists t1, []; rewrite app_nil_r; auto]).
  destruct ((if b then sp else ret tt) w1) as [[[[]| | | |] w2] t2]; cbn;
    try (split; [reflexivity | exists (t1 ++ t2), []; rewrite app_nil_r; auto]).
  unfold print, emit. cbn.
  destruct (st w2) as [[r3 w3] t3]. cbn.
  split; [reflexivity|].
  exists (t1 ++ t2), t3. rewrite <- !app_assoc. split; [reflexivity|].
  right. reflexivity.
Qed.

End Verbs.

(** ** The blocks of [start] *)

Lemma start_unfold (self : Initd) (exit : option callback) (w : world) :
  start self exit w
  = (live <- already_running self;;
     if live then log WARNING "Daemon already running."
     else
       change_uid self;;
       become_daemon (workdir self) (stdout self) (stderr self) (umask self);;
       _create_pid_file self;;
       serve self exit) w.
Proof. reflexivity. Qed.

(** ** The alarm handler *)


(** An exception that leaves the loop passes the [finally] clause and
    ends the process with status 1 when it is [SystemExit(1)]. *)
Lemma run_loop_SystemExit (self : Initd) (sc : list iteration) (w w1 : world)
    (t1 : list event) :
  main_loop sc w = (Raise (Py.SystemExit 1), w1, t1) ->
  exit_status (res (run_loop self sc w)) = Some 1.
Proof.
  intros H. unfold run_loop, try_finally. rewrite H.
  unfold bind, os_remove. destruct (fs w1 !! pid_file self); reflexivity.
Qed.

(** When [exit()] raises or never returns, the handler stops there: the
    flag stays set and no alarm is armed. *)
Lemma term_handler_exit_fails (c : callback) (r : cb_result) (w : world) :
  r <> Returns ->
  trace (cb_term_handler (Some c) r w) = [Log DEBUG "Calling exit handler"; CalledExit]
  /\ final (cb_term_handler (Some c) r w) = w
  /\ forall a, res (cb_term_handler (Some c) r w) <> Ok a.
Proof.
  intros Hr. destruct r as [|e|]; [congruence| |];
    repeat split; discriminate.
Qed.

(** ** The pid file at the end of the loop *)

(** C8, as the code has it. [os.remove] raises when the pid file is
    absent.  However the loop is left, by a normal return or by an
    exception (that of the alarm, or one of [run()] that is not an
    [Exception]), the [finally] clause removes the pid file: when the
    file is still there the removal succeeds, "Exiting." is logged and
    the loop's own result stands; when the file is gone, [os.remove]
    raises [OSError(ENOENT)], which replaces the loop's result, and
    nothing is logged.  The clause is not reached when the process is
    killed, calls [os._exit] or stays in the loop. *)
Theorem removal_at_loop_exit (self : Initd) (sc : list iteration) (w : world) :
  run_loop self sc w
  = match res (main_loop sc w) with
    | Ok _ | Raise _ =>
        match fs (final (main_loop sc w)) !! pid_file self with
        | Some _ =>
            (res (main_loop sc w),
             set_fs (delete (pid_file self)) (final (main_loop sc w)),
             trace (main_loop sc w) ++ [Removed (pid_file self); Log INFO "Exiting."])
        | None =>
            (Raise (Py.OSErrorOn Py.ENOENT (pid_file self)),
             final (main_loop sc w), trace (main_loop sc w))
        end
    | _ => main_loop sc w
    end.
Proof.
  unfold run_loop, try_finally.
  destruct (main_loop sc w) as [[r w1] t1]. unfold res, final, trace. cbn [fst snd].
  destruct r as [[]|e|c|sg|]; try reflexivity;
    unfold bind, os_remove; destruct (fs w1 !! pid_file self); cbn;
    rewrite ?app_nil_r; reflexivity.
Qed.

(** ** Exceptions of [run()] *)

(** Events whose handlers all return are delivered during [run()] as
    they are anywhere else: what [run()] catches plays no part. *)
Lemma deliver_during_ok (c : Py.exn -> bool) (evs : list env_event)
    (w w1 : world) (t : list event) :
  deliver_all evs w = (Ok tt, w1, t) ->
  deliver_during c evs w = (Ok tt, w1, t).
Proof.
  revert w t. induction evs as [|ev evs IH]; intros w t H.
  - exact H.
  - cbn [deliver_all] in H. cbn [deliver_during].
    unfold bind in H |- *. unfold try_except.
    destruct (deliver ev w) as [[r w0] t0]. destruct r as [[]|e|cd|sg|]; try discriminate.
    destruct (deliver_all evs w0) as [[r' w'] t'] eqn:E.
    destruct r' as [[]|e|cd|sg|]; try discriminate.
    injection H as -> <-. rewrite (IH w0 t' E). reflexivity.
Qed.

(** A pass in which [run()] raises: an instance of [Exception] is logged
    and the loop goes on with the rest of the script; any other
    exception leaves the loop. *)
Lemma main_loop_raises (it : iteration) (sc : list iteration)
    (w w0 w1 : world) (tb td : list event) (e : Py.exn) :
  deliver_all (before it) w = (Ok tt, w0, tb) ->
  running (proc w0) = true ->
  deliver_all (during it) w0 = (Ok tt, w1, td) ->
  outcome it = Raises e ->
  main_loop (it :: sc) w
  = if Py.is_Exception e then
      (res (main_loop sc w1), final (main_loop sc w1),
       tb ++ LoopTest true :: CalledRun :: td
          ++ Log ERROR (exn_str e) :: trace (main_loop sc w1))
    else (Raise e, w1, tb ++ LoopTest true :: CalledRun :: td).
Proof.
  intros Hb Hrun Hd Ho. cbn [main_loop].
  unfold bind at 1 2. rewrite Hb.
  unfold bind, gets, emit, try_except. rewrite Hrun.
  rewrite (deliver_during_ok (catches it) _ _ _ _ Hd), Ho.
  unfold raise, log, emit, res, final, trace.
  destruct (Py.is_Exception e); cbn.
  - destruct (main_loop sc w1) as [[r' w'] t']. cbn.
    rewrite !app_nil_r. rewrite <- !app_assoc. reflexivity.
  - rewrite !app_nil_r. reflexivity.
Qed.

(** ** What the events of the environment can and cannot do *)

Lemma count_app (f : event -> bool) (a b : list event) :
  count f (a ++ b) = (count f a + count f b)%nat.
Proof. unfold count. rewrite List.filter_app, length_app. reflexivity. Qed.

Lemma count_cons (f : event -> bool) (e : event) (t : list event) :
  count f (e :: t) = ((if f e then 1 else 0) + count f t)%nat.
Proof. unfold count. cbn. destruct (f e); reflexivity. Qed.

Lemma count_none (f g : event -> bool) (t : list event) :
  (forall e, g e = true -> f e = false) ->
  Forall (fun e => g e = true) t -> count f t = 0%nat.
Proof.
  intros Hf Ht. unfold count. induction Ht as [|e t He _ IH]; [reflexivity|].
  cbn. rewrite (Hf e He). exact IH.
Qed.

(** ** Reasoning rules for the monad *)

Section Rules.

Variable F : world -> world -> Prop.
Variable cls : event -> bool.
Hypothesis F_refl : forall w, F w w.
Hypothesis F_trans : forall a b c, F a b -> F b c -> F a c.

Lemma respects_ret {A} (a : A) : respects F cls (ret a).
Proof. intros w. split; [apply F_refl | constructor]. Qed.

Lemma respects_raise {A} (e : Py.exn) : respects F cls (@raise A e).
Proof. intros w. split; [apply F_refl | constructor]. Qed.

Lemma respects_diverge {A} : respects F cls (@diverge A).
Proof. intros w. split; [apply F_refl | constructor]. Qed.

Lemma respects_os__exit {A} (c : Z) : respects F cls (@os__exit A c).
Proof. intros w. split; [apply F_refl | constructor]. Qed.

Lemma respects_gets {A} (f : world -> A) : respects F cls (gets f).
Proof. intros w. split; [apply F_refl | constructor]. Qed.

Lemma respects_emit (ev : event) : cls ev = true -> respects F cls (emit ev).
Proof. intros H w. split; [apply F_refl | repeat constructor; exact H]. Qed.

Lemma respects_modify (f : world -> world) :
  (forall w, F w (f w)) -> respects F cls (modify f).
Proof. intros H w. split; [apply H | constructor]. Qed.

Lemma respects_bind {A B} (m : M A) (f : A -> M B) :
  respects F cls m -> (forall a, respects F cls (f a)) -> respects F cls (bind m f).
Proof.
  intros Hm Hf w. unfold bind. specialize (Hm w).
  destruct (m w) as [[[a| | | |] w1] t1]; cbn in Hm; try exact Hm.
  specialize (Hf a w1). destruct (f a w1) as [[r2 w2] t2]. cbn in *.
  destruct Hm as [Hm1 Hm2], Hf as [Hf1 Hf2]. split.
  - eapply F_trans; eassumption.
  - apply Forall_app; split; assumption.
Qed.

Lemma respects_try_except {A} (m : M A) (h : Py.exn -> option (M A)) :
  respects F cls m -> (forall e k, h e = Some k -> respects F cls k) ->
  respects F cls (try_except m h).
Proof.
  intros Hm Hh w. unfold try_except. specialize (Hm w).
  destruct (m w) as [[[a|e| | |] w1] t1]; cbn in Hm; try exact Hm.
  destruct (h e) as [k|] eqn:Hk; [|exact Hm].
  specialize (Hh e k Hk w1). destruct (k w1) as [[r2 w2] t2]. cbn in *.
  destruct Hm as [Hm1 Hm2], Hh as [Hf1 Hf2]. split.
  - eapply F_trans; eassumption.
  - apply Forall_app; split; assumption.
Qed.

Lemma respects_try_finally {A} (m : M A) (fin : M unit) :
  respects F cls m -> respects F cls fin -> respects F cls (try_finally m fin).
Proof.
  intros Hm Hf w. unfold try_finally. specialize (Hm w).
  destruct (m w) as [[[a|e| | |] w1] t1]; cbn in Hm; try exact Hm;
    specialize (Hf w1); destruct (fin w1) as [[r2 w2] t2]; cbn in *;
    destruct Hm as [Hm1 Hm2], Hf as [Hf1 Hf2]; (split;
    [eapply F_trans; eassumption | apply Forall_app; split; assumption]).
Qed.

End Rules.

Ltac proj :=
  repeat match goal with
    | |- context [trace (?a, ?b, ?c)] => change (trace (a, b, c)) with c
    | |- context [final (?a, ?b, ?c)] => change (final (a, b, c)) with b
    | |- context [res (?a, ?b, ?c)] => change (res (a, b, c)) with a
    end.

(** The result, final world and trace of a sequence. *)
Lemma bind_unfold {A B} (m : M A) (f : A -> M B) (w : world) :
  bind m f w
  = match res (m w) with
    | Ok a =>
        (res (f a (final (m w))), final (f a (final (m w))),
         trace (m w) ++ trace (f a (final (m w))))
    | Raise e => (Raise e, final (m w), trace (m w))
    | OsExit c => (OsExit c, final (m w), trace (m w))
    | Killed s => (Killed s, final (m w), trace (m w))
    | Diverge => (Diverge, final (m w), trace (m w))
    end.
Proof.
  unfold bind, res, final, trace.
  destruct (m w) as [[[a| | | |] w1] t1]; cbn; try reflexivity.
  destruct (f a w1) as [[r2 w2] t2]. reflexivity.
Qed.

Lemma respects_weaken {A} (F G : world -> world -> Prop) (c d : event -> bool)
    (m : M A) :
  (forall w w', F w w' -> G w w') -> (forall e, c e = true -> d e = true) ->
  respects F c m -> respects G d m.
Proof.
  intros HF Hc Hm w. destruct (Hm w) as [H1 H2]. split; [auto|].
  eapply Forall_impl; [exact H2|exact Hc].
Qed.

(** ** What each part of [start] leaves unchanged *)

Lemma frame_refl (w : world) : frame w w.
Proof. split; reflexivity. Qed.

Lemma frame_trans (a b c : world) : frame a b -> frame b c -> frame a c.
Proof. intros [] []. split; congruence. Qed.

Lemma loop_frame_refl (w : world) : loop_frame w w.
Proof. split; [apply frame_refl | reflexivity]. Qed.

Lemma loop_frame_trans (a b c : world) :
  loop_frame a b -> loop_frame b c -> loop_frame a c.
Proof. intros [H1 H2] [H3 H4]. split; [eapply frame_trans; eauto | congruence]. Qed.

Create HintDb respects.
#[local] Hint Resolve frame_refl frame_trans loop_frame_refl loop_frame_trans : respects.

Ltac respects_step :=
  match goal with
  | |- respects _ _ (bind _ _) => apply respects_bind; [eauto with respects| |intros]
  | |- respects _ _ (try_except _ _) =>
      apply respects_try_except; [eauto with respects| |intros ? ? ?]
  | |- respects _ _ (try_finally _ _) => apply respects_try_finally; [eauto with respects| |]
  | |- respects _ _ (ret _) => apply respects_ret; eauto with respects
  | |- respects _ _ (raise _) => apply respects_raise; eauto with respects
  | |- respects _ _ (sys_exit _) => apply respects_raise; eauto with respects
  | |- respects _ _ diverge => apply respects_diverge; eauto with respects
  | |- respects _ _ (os__exit _) => apply respects_os__exit; eauto with respects
  | |- respects _ _ (gets _) => apply respects_gets; eauto with respects
  | |- respects _ _ (emit _) => apply respects_emit; [eauto with respects|reflexivity]
  | |- respects _ _ (log _ _) => apply respects_emit; [eauto with respects|reflexivity]
  | |- respects _ _ (modify _) =>
      apply respects_modify;
      intros [? ? ? ? ? ? ? ? []]; repeat split; reflexivity
  end.

Lemma deliver_respects (ev : env_event) :
  respects loop_frame handler_event (deliver ev).
Proof.
  intros w. destruct w as [px f ro al pw fk sc tk [p u g c m io st sa a rn]].
  destruct ev as [r| |path|q]; cbn;
    [destruct st as [|[cb|]]; cbn; [|destruct r; cbn|]
    |destruct a as [n|]; cbn; [destruct sa; cbn|]| |];
    (split; [split; [split|]; reflexivity|repeat constructor]).
Qed.

Lemma deliver_all_respects (evs : list env_event) :
  respects loop_frame handler_event (deliver_all evs).
Proof.
  induction evs as [|ev evs IH]; cbn [deliver_all].
  - respects_step.
  - apply respects_bind; [apply loop_frame_trans | apply deliver_respects | intros; apply IH].
Qed.

Lemma deliver_during_respects (c : Py.exn -> bool) (evs : list env_event) :
  respects loop_frame handler_event (deliver_during c evs).
Proof.
  induction evs as [|ev evs IH]; cbn [deliver_during].
  - respects_step.
  - apply respects_bind; [apply loop_frame_trans | | intros; apply IH].
    apply respects_try_except; [apply loop_frame_trans | apply deliver_respects |].
    intros e k Hk. destruct (c e); [|discriminate]. injection Hk as <-.
    respects_step.
Qed.

Lemma main_loop_respects (sc : list iteration) :
  respects loop_frame serve_event (main_loop sc).
Proof.
  assert (Hd : forall evs, respects loop_frame serve_event (deliver_all evs)).
  { intros evs. eapply respects_weaken; [| |apply deliver_all_respects]; auto.
    intros []; cbn; congruence. }
  assert (Hd' : forall c evs, respects loop_frame serve_event (deliver_during c evs)).
  { intros c evs. eapply respects_weaken; [| |apply deliver_during_respects]; auto.
    intros []; cbn; congruence. }
  induction sc as [|it sc IH]; cbn [main_loop].
  - repeat respects_step. destruct a; repeat respects_step.
  - repeat respects_step; auto.
    destruct a0; repeat respects_step; auto.
    + destruct (outcome it); repeat respects_step.
    + destruct (Py.is_Exception _); [|discriminate].
      match goal with H : Some _ = Some _ |- _ => injection H as <- end.
      repeat respects_step.
Qed.

(** ** Calls of [exit()] and the flag *)

Lemma main_loop_cons (it : iteration) (sc : list iteration) (w : world) :
  main_loop (it :: sc) w
  = (deliver_all (before it);;
     b <- gets (fun w => running (proc w));; emit (LoopTest b);;
     if b then run_once it;; main_loop sc else ret tt) w.
Proof. reflexivity. Qed.

Lemma bind_ext {A B} (m : M A) (f g : A -> M B) (w : world) :
  (forall a v, f a v = g a v) -> bind m f w = bind m g w.
Proof.
  intros H. unfold bind. destruct (m w) as [[[a| | | |] w1] t1]; try reflexivity.
  rewrite H. reflexivity.
Qed.

Lemma main_loop_step (it : iteration) (sc : list iteration) (w : world) :
  main_loop (it :: sc) w = (deliver_all (before it);; loop_body it sc) w.
Proof.
  rewrite main_loop_cons. apply bind_ext. intros _ w1.
  unfold loop_body. unfold bind at 1 2, gets, emit.
  destruct (running (proc w1)); [|reflexivity].
  destruct ((run_once it;; main_loop sc) w1) as [[r2 w2] t2]. reflexivity.
Qed.

(** [run_once] ends where the events that arrive during [run()] leave
    the process, and adds at most an error record to their trace. *)
Lemma run_once_unfold (it : iteration) (w : world) :
  final (run_once it w) = final (deliver_during (catches it) (during it) w)
  /\ exists tl,
       trace (run_once it w)
       = CalledRun :: trace (deliver_during (catches it) (during it) w) ++ tl
       /\ Forall (fun e => is_error_log e = true) tl.
Proof.
  unfold run_once, try_except, bind, emit, res, final, trace.
  destruct (deliver_during (catches it) (during it) w) as [[[[]|e| | |] w1] t1]; cbn.
  - destruct (outcome it) as [|e|]; cbn.
    + split; [reflexivity|]. exists []. split; [reflexivity|constructor].
    + destruct (Py.is_Exception e); cbn.
      * split; [reflexivity|]. exists [Log ERROR (exn_str e)].
        rewrite app_nil_r. split; [reflexivity|repeat constructor].
      * split; [reflexivity|]. exists []. split; [reflexivity|constructor].
    + split; [reflexivity|]. exists []. split; [reflexivity|constructor].
  - destruct (Py.is_Exception e); cbn.
    + split; [reflexivity|]. exists [Log ERROR (exn_str e)].
      split; [reflexivity|repeat constructor].
    + split; [reflexivity|]. exists []. rewrite app_nil_r. split; [reflexivity|constructor].
  - split; [reflexivity|]. exists []. rewrite app_nil_r. split; [reflexivity|constructor].
  - split; [reflexivity|]. exists []. rewrite app_nil_r. split; [reflexivity|constructor].
  - split; [reflexivity|]. exists []. rewrite app_nil_r. split; [reflexivity|constructor].
Qed.

(** [exit()] is called at most once for each termination signal. *)
Lemma deliver_count (ev : env_event) (w : world) :
  (count is_exit (trace (deliver ev w)) <= sigterms [ev])%nat.
Proof.
  destruct w as [px f ro al pw fk sc tk [p u g c m io st sa a rn]].
  destruct ev as [r| |path|q]; cbn;
    [destruct st as [|[cb|]]; cbn; [|destruct r; cbn|]
    |destruct a as [n|]; cbn; [destruct sa; cbn|]| |]; unfold count; cbn; lia.
Qed.

Lemma deliver_all_count (evs : list env_event) (w : world) :
  (count is_exit (trace (deliver_all evs w)) <= sigterms evs)%nat.
Proof.
  revert w. induction evs as [|ev evs IH]; intros w; cbn [deliver_all].
  - unfold count. cbn. lia.
  - rewrite bind_unfold. pose proof (deliver_count ev w) as H1.
    assert (sigterms (ev :: evs) = sigterms [ev] + sigterms evs)%nat as ->.
    { unfold sigterms. cbn. destruct (is_sigterm ev); reflexivity. }
    destruct (res (deliver ev w)); unfold trace at 1; cbn [snd]; try lia.
    rewrite count_app. specialize (IH (final (deliver ev w))). lia.
Qed.

(** An exception that [run()] catches changes neither what the handler
    has done nor where it has left the process. *)
Lemma deliver_caught (c : Py.exn -> bool) (ev : env_event) (w : world) :
  final (try_except (deliver ev)
           (fun e => if c e then Some (ret tt) else None) w)
  = final (deliver ev w)
  /\ trace (try_except (deliver ev)
              (fun e => if c e then Some (ret tt) else None) w)
     = trace (deliver ev w).
Proof.
  unfold try_except, ret, final, trace.
  destruct (deliver ev w) as [[[[]|e| | |] w1] t1]; cbn; auto.
  destruct (c e); cbn; rewrite ?app_nil_r; auto.
Qed.

Lemma deliver_during_count (c : Py.exn -> bool) (evs : list env_event) (w : world) :
  (count is_exit (trace (deliver_during c evs w)) <= sigterms evs)%nat.
Proof.
  revert w. induction evs as [|ev evs IH]; intros w; cbn [deliver_during].
  - unfold count. cbn. lia.
  - rewrite bind_unfold. pose proof (deliver_count ev w) as H1.
    destruct (deliver_caught c ev w) as [Hf Ht]. rewrite Ht.
    assert (sigterms (ev :: evs) = sigterms [ev] + sigterms evs)%nat as ->.
    { unfold sigterms. cbn. destruct (is_sigterm ev); reflexivity. }
    match goal with |- context [match ?r with _ => _ end] => destruct r end;
      unfold trace at 1; cbn [snd]; try lia.
    rewrite count_app.
    match goal with |- context [deliver_during c evs ?v] => specialize (IH v) end.
    lia.
Qed.

Lemma count_error_logs (tl : list event) :
  Forall (fun e => is_error_log e = true) tl -> count is_exit tl = 0%nat.
Proof.
  apply count_none. intros [] H; try discriminate; reflexivity.
Qed.

Lemma main_loop_count (sc : list iteration) (w : world) :
  (count is_exit (trace (main_loop sc w)) <= script_sigterms sc)%nat.
Proof.
  revert w. induction sc as [|it sc IH]; intros w.
  - cbn. destruct (running (proc w)); unfold count; cbn; lia.
  - rewrite main_loop_cons, bind_unfold. cbn [script_sigterms].
    pose proof (deliver_all_count (before it) w) as Hb.
    destruct (res (deliver_all (before it) w)); unfold trace at 1; cbn [snd]; try lia.
    rewrite count_app. set (w1 := final (deliver_all (before it) w)).
    enough (count is_exit (trace ((b <- gets (fun w => running (proc w));;
              emit (LoopTest b);;
              if b then run_once it;; main_loop sc else ret tt) w1))
            <= sigterms (during it) + script_sigterms sc)%nat by lia.
    unfold bind at 1 2, gets, emit. destruct (running (proc w1)).
    + rewrite bind_unfold.
      destruct (run_once_unfold it w1) as (Hf & tl & Ht & Hl).
      pose proof (deliver_during_count (catches it) (during it) w1) as Hd.
      pose proof (count_error_logs tl Hl) as Hc.
      specialize (IH (final (run_once it w1))).
      destruct (res (run_once it w1)); cbn; rewrite Ht;
        repeat (rewrite count_cons || rewrite count_app); cbn; lia.
    + unfold count. cbn. lia.
Qed.

Lemma stop_after_exit_seen (t : list event) : stop_after_exit true t = true.
Proof. induction t as [|[] t IH]; cbn; auto. destruct b; auto. Qed.

Lemma stop_after_exit_app (s : bool) (a b : list event) :
  stop_after_exit s (a ++ b)
  = stop_after_exit s a && stop_after_exit (s || has_exit a) b.
Proof.
  revert s. induction a as [|e a IH]; intros s; cbn.
  - rewrite orb_false_r. reflexivity.
  - destruct e; cbn; rewrite ?IH; try reflexivity.
    + destruct b0; cbn; rewrite ?IH; [reflexivity|].
      destruct s; cbn; reflexivity.
    + rewrite !stop_after_exit_seen, orb_true_r, stop_after_exit_seen. reflexivity.
Qed.

Lemma stop_after_exit_handler (s : bool) (t : list event) :
  Forall (fun e => handler_event e = true) t -> stop_after_exit s t = true.
Proof.
  intros H. revert s. induction H as [|e t He _ IH]; intros s; [reflexivity|].
  destruct e; try discriminate; cbn; auto using stop_after_exit_seen.
Qed.

Lemma has_exit_app (a b : list event) :
  has_exit (a ++ b) = has_exit a || has_exit b.
Proof. apply existsb_app. Qed.

(** With a handler that calls [exit()], the flag changes only through a
    call of [exit()]. *)
Lemma deliver_flag (ev : env_event) (w : world) (c : callback) :
  sigterm (proc w) = TermHandler (Some c) ->
  has_exit (trace (deliver ev w)) = false ->
  running (proc (final (deliver ev w))) = running (proc w).
Proof.
  destruct w as [px f ro al pw fk sc tk [p u g cw m io st sa a rn]].
  cbn. intros ->.
  destruct ev as [r| |path|q]; cbn;
    [destruct r; cbn|destruct a as [n|]; cbn; [destruct sa; cbn|]| |];
    intros H; try discriminate; reflexivity.
Qed.

Lemma deliver_all_flag (evs : list env_event) (w : world) (c : callback) :
  sigterm (proc w) = TermHandler (Some c) ->
  has_exit (trace (deliver_all evs w)) = false ->
  running (proc (final (deliver_all evs w))) = running (proc w).
Proof.
  revert w. induction evs as [|ev evs IH]; intros w Hs; cbn [deliver_all].
  - reflexivity.
  - rewrite bind_unfold.
    pose proof (deliver_flag ev w c Hs) as H1.
    destruct (deliver_respects ev w) as [[_ Hst] _]. rewrite Hs in Hst.
    specialize (IH (final (deliver ev w)) Hst).
    destruct (res (deliver ev w)); proj; auto.
    rewrite has_exit_app. intros [Ha Hb]%orb_false_elim.
    rewrite IH by assumption. auto.
Qed.

Lemma deliver_during_flag (k : Py.exn -> bool) (evs : list env_event)
    (w : world) (c : callback) :
  sigterm (proc w) = TermHandler (Some c) ->
  has_exit (trace (deliver_during k evs w)) = false ->
  running (proc (final (deliver_during k evs w))) = running (proc w).
Proof.
  revert w. induction evs as [|ev evs IH]; intros w Hs; cbn [deliver_during].
  - reflexivity.
  - rewrite bind_unfold.
    pose proof (deliver_flag ev w c Hs) as H1.
    destruct (deliver_respects ev w) as [[_ Hst] _]. rewrite Hs in Hst.
    destruct (deliver_caught k ev w) as [Hf Ht]. rewrite Hf, Ht.
    specialize (IH (final (deliver ev w)) Hst).
    match goal with |- context [match ?r with _ => _ end] => destruct r end;
      proj; auto.
    rewrite has_exit_app. intros [Ha Hb]%orb_false_elim.
    rewrite IH by assumption. auto.
Qed.

(** The loop returns only after it has read the flag as cleared. *)
Lemma main_loop_returns (sc : list iteration) (w : world) :
  res (main_loop sc w) = Ok tt -> running (proc (final (main_loop sc w))) = false.
Proof.
  revert w. induction sc as [|it sc IH]; intros w.
  - cbn. destruct (running (proc w)) eqn:Hr; cbn; [discriminate|auto].
  - rewrite main_loop_step, bind_unfold.
    destruct (res (deliver_all (before it) w)); proj; try discriminate.
    set (w1 := final (deliver_all (before it) w)).
    unfold loop_body. destruct (running (proc w1)) eqn:Hr; proj; [|auto].
    rewrite bind_unfold. specialize (IH (final (run_once it w1))).
    destruct (res (run_once it w1)); proj; try discriminate. exact IH.
Qed.

Lemma error_logs_skipped (tl : list event) :
  Forall (fun e => is_error_log e = true) tl ->
  has_exit tl = false /\ forall s t, stop_after_exit s (tl ++ t) = stop_after_exit s t.
Proof.
  induction 1 as [|e tl He _ [IH1 IH2]]; [split; reflexivity|].
  destruct e; try discriminate. split; [exact IH1|]. intros s t. cbn. apply IH2.
Qed.

Lemma main_loop_stop_after_exit (sc : list iteration) (w : world) (c : callback) :
  sigterm (proc w) = TermHandler (Some c) ->
  running (proc w) = true ->
  stop_after_exit false (trace (main_loop sc w)) = true.
Proof.
  revert w. induction sc as [|it sc IH]; intros w Hs Hr.
  - cbn. rewrite Hr. reflexivity.
  - rewrite main_loop_step, bind_unfold.
    destruct (deliver_all_respects (before it) w) as [[_ Hst] Hev].
    rewrite Hs in Hst.
    pose proof (deliver_all_flag (before it) w c Hs) as Hfl.
    set (w1 := final (deliver_all (before it) w)) in *.
    set (tb := trace (deliver_all (before it) w)) in *.
    destruct (res (deliver_all (before it) w)); proj;
      try (apply stop_after_exit_handler; exact Hev).
    rewrite stop_after_exit_app, (stop_after_exit_handler _ _ Hev). cbn [andb orb].
    destruct (has_exit tb) eqn:Hx; [apply stop_after_exit_seen|].
    specialize (Hfl eq_refl). rewrite Hr in Hfl.
    unfold loop_body. rewrite Hfl. proj. cbn [stop_after_exit].
    rewrite bind_unfold.
    destruct (run_once_unfold it w1) as (Hf & tl & Ht & Hl).
    destruct (deliver_during_respects (catches it) (during it) w1) as [[_ Hst2] Hev2].
    rewrite Hst in Hst2.
    pose proof (deliver_during_flag (catches it) (during it) w1 c Hst) as Hfl2.
    rewrite Hfl in Hfl2.
    destruct (error_logs_skipped tl Hl) as [Hxl Htl].
    specialize (IH (final (run_once it w1))). rewrite Hf in IH.
    assert (Hpre : forall t',
      (has_exit (trace (deliver_during (catches it) (during it) w1)) = false ->
       stop_after_exit false t' = true) ->
      stop_after_exit false (trace (run_once it w1) ++ t') = true).
    { intros t' Ht'. rewrite Ht. cbn [app stop_after_exit].
      rewrite <- app_assoc, stop_after_exit_app, (stop_after_exit_handler _ _ Hev2).
      cbn [andb orb].
      destruct (has_exit (trace (deliver_during (catches it) (during it) w1))) eqn:Hx2;
        [apply stop_after_exit_seen|].
      rewrite Htl. auto. }
    destruct (res (run_once it w1)); proj;
      try (rewrite <- (app_nil_r (trace (run_once it w1))); apply Hpre; reflexivity).
    apply Hpre. intros Hx2. rewrite Hf. apply IH; auto.
Qed.

(** ** The part of [start] that precedes the loop *)

Lemma already_running_respects (self : Initd) :
  respects (fun w w' => w' = w) setup_event (already_running self).
Proof.
  intros w. unfold already_running, bind, path_exists, gets, read_file, py_int,
    try_except, os_kill, ret, raise.
  destruct (bool_decide (is_Some (fs w !! pid_file self))); cbn; [|split; auto].
  destruct (fs w !! pid_file self) as [s|]; cbn; [|split; auto].
  destruct (Py.int s) as [p|]; cbn; [|split; auto].
  destruct (bool_decide (p ∈ alive w)); [|destruct (Py.fits_c_int p)]; cbn;
    split; auto; repeat constructor.
Qed.

Lemma change_uid_respects (self : Initd) :
  respects frame setup_event (change_uid self).
Proof.
  intros w. unfold change_uid, bind, try_except, getpwnam, os_setgid, os_setuid,
    log, emit, sys_exit, raise, ret.
  destruct w as [px f ro al pw fk sc tk [p u g c m io st sa a rn]]. cbn.
  destruct (String.eqb (user self) ""); cbn; [split; [split; reflexivity|constructor]|].
  destruct (pw !! user self) as [[pu pg]|]; cbn;
    [|split; [split; reflexivity|repeat constructor]].
  destruct ((u =? 0)%Z || (pg =? g)%Z); cbn;
    [|split; [split; reflexivity|repeat constructor]].
  destruct ((u =? 0)%Z || (pu =? u)%Z); cbn;
    split; try (split; reflexivity); repeat constructor.
Qed.

(** Opening a log file creates it at most; the process is untouched. *)
Lemma open_append_spec (p : string) (w : world) :
  exists w', open_append p w = (Ok tt, w', [])
             /\ proc w' = proc w /\ forks w' = forks w
             /\ script w' = script w /\ posix w' = posix w.
Proof.
  unfold open_append, modify.
  destruct (String.eqb p "/dev/null"); [|destruct (fs w !! p)];
    eexists; split; try reflexivity; auto.
Qed.

Arguments open_append : simpl never.

Lemma become_daemon_spec (h o e : string) (m : Z) (w : world) :
  Forall (fun ev => setup_event ev = true) (trace (become_daemon h o e m w))
  /\ script (final (become_daemon h o e m w)) = script w
  /\ (res (become_daemon h o e m w) = Ok tt ->
      In (Redirected o e) (trace (become_daemon h o e m w))
      /\ (posix w = true ->
          In (Some (pid (proc (final (become_daemon h o e m w))))) (forks w))
      /\ (posix w = false ->
          pid (proc (final (become_daemon h o e m w))) = pid (proc w))).
Proof.
  assert (Ho : forall p W, exists w',
             (if String.eqb p "" then ret tt else open_append p) W
             = (Ok tt, w', [])
             /\ proc w' = proc W /\ forks w' = forks W
             /\ script w' = script W /\ posix w' = posix W).
  { intros p W. destruct (String.eqb p ""); [eexists; split; eauto|].
    apply open_append_spec. }
  destruct w as [px f ro al pw fk sc tk pr].
  unfold become_daemon, bind at 1, gets. cbn [posix].
  destruct px.
  - unfold become_daemon_posix, os_fork, os_setsid, os_chdir, os_umask,
      try_except, bind, emit, modify, sys_exit, os__exit, raise, ret.
    cbn [forks].
    destruct fk as [|[c1|] [|[c2|] l2]]; cbn;
      try (split; [repeat constructor|split; [reflexivity|discriminate]]).
    repeat match goal with
      | |- context [open_append ?p ?W] =>
          let w' := fresh "w'" in
          destruct (open_append_spec p W) as (w' & -> & ? & ? & ? & ?)
      end.
    cbn in *. split; [repeat constructor|]. split; [congruence|].
    intros _. split; [tauto|]. split; [|discriminate].
    intros _. right. left. f_equal.
    repeat match goal with H : proc _ = _ |- _ => rewrite H end. reflexivity.
  - unfold become_daemon_other, os_chdir, os_umask, bind, emit, modify.
    cbn.
    repeat match goal with
      | |- context [(if String.eqb ?p "" then ret tt else open_append ?p) ?W] =>
          let w' := fresh "w'" in
          destruct (Ho p W) as (w' & -> & ? & ? & ? & ?)
      end.
    cbn in *. split; [repeat constructor|]. split; [congruence|].
    intros _. split; [tauto|]. split; [discriminate|].
    intros _. repeat match goal with H : proc _ = _ |- _ => rewrite H end. reflexivity.
Qed.

Lemma create_pid_file_spec (self : Initd) (w : world) :
  _create_pid_file self w
  = (Ok tt, set_fs <[pid_file self := Py.str (pid (proc w))]> w,
     [Wrote (pid_file self) (Py.str (pid (proc w)))])
  \/ (Forall (fun ev => setup_event ev = true) (trace (_create_pid_file self w))
      /\ forall a, res (_create_pid_file self w) <> Ok a).
Proof.
  unfold _create_pid_file, try_except, bind, os_getpid, gets, write_file.
  destruct (bool_decide (pid_file self ∈ readonly w)); cbn.
  - right. split; [repeat constructor|discriminate].
  - left. reflexivity.
Qed.

Lemma os_remove_respects (p : string) : respects frame serve_event (os_remove p).
Proof.
  intros w. unfold os_remove. destruct (fs w !! p); cbn.
  - split; [split; reflexivity|repeat constructor].
  - split; [split; reflexivity|constructor].
Qed.

Lemma run_loop_respects (self : Initd) (sc : list iteration) :
  respects frame serve_event (run_loop self sc).
Proof.
  unfold run_loop. apply respects_try_finally; [apply frame_trans| |].
  - eapply respects_weaken; [| |apply main_loop_respects]; [intros ? ? []|]; auto.
  - apply respects_bind; [apply frame_trans|apply os_remove_respects|intros].
    apply respects_emit; [apply frame_refl|reflexivity].
Qed.

(** What [serve] does before the loop. *)
Lemma serve_unfold (self : Initd) (exit : option callback) (w : world) :
  serve self exit w
  = let v := set_proc (with_sigterm (TermHandler exit))
               (set_proc (with_running true) w) in
    let x := run_loop self (script w) v in
    (res x, final x, Installed Py.SIGTERM :: Log INFO "Starting" :: trace x).
Proof.
  unfold serve, signal_sigterm, log, bind, modify, emit, gets. cbn.
  destruct (run_loop self (script w) _) as [[r2 w2] t2]. reflexivity.
Qed.

Lemma serve_respects (self : Initd) (exit : option callback) :
  respects frame serve_event (serve self exit).
Proof.
  intros w. rewrite serve_unfold. cbn zeta. proj.
  destruct (run_loop_respects self (script w)
              (set_proc (with_sigterm (TermHandler exit))
                 (set_proc (with_running true) w))) as [[H1 H2 H3 H4] Hev].
  split; [split; assumption|]. repeat constructor. exact Hev.
Qed.

(** The shape of every execution of [start]: either it ends before the
    pid file is written, or it detaches, writes its own pid and serves. *)
Lemma start_shape (self : Initd) (exit : option callback) (w : world) :
  Forall (fun ev => setup_event ev = true) (trace (start self exit w))
  \/ exists ta w3,
       Forall (fun ev => setup_event ev = true) ta
       /\ In (Redirected (stdout self) (stderr self)) ta
       /\ script w3 = script w
       /\ (posix w = true -> In (Some (pid (proc w3))) (forks w))
       /\ (posix w = false -> pid (proc w3) = pid (proc w))
       /\ start self exit w
          = let x := serve self exit
                       (set_fs <[pid_file self := Py.str (pid (proc w3))]> w3) in
            (res x, final x,
             ta ++ Wrote (pid_file self) (Py.str (pid (proc w3))) :: trace x).
Proof.
  rewrite start_unfold, bind_unfold.
  destruct (already_running_respects self w) as [Hw0 Hev0].
  set (t0 := trace (already_running self w)) in *.
  rewrite Hw0.
  destruct (res (already_running self w)) as [[|]| | | |]; proj; auto.
  { left. apply Forall_app. split; [exact Hev0|repeat constructor]. }
  rewrite bind_unfold.
  destruct (change_uid_respects self w) as [[Hp1 Hf1 Hx1 Hs1] Hev1].
  set (w1 := final (change_uid self w)) in *.
  set (t1 := trace (change_uid self w)) in *.
  destruct (res (change_uid self w)); proj;
    try (left; apply Forall_app; split; assumption).
  rewrite bind_unfold.
  destruct (become_daemon_spec (workdir self) (stdout self) (stderr self)
              (umask self) w1) as (Hev2 & Hs2 & Hok2).
  set (w2 := final (become_daemon _ _ _ _ w1)) in *.
  set (t2 := trace (become_daemon _ _ _ _ w1)) in *.
  destruct (res (become_daemon _ _ _ _ w1)) as [[]| | | |]; proj;
    try (left; rewrite !Forall_app; repeat split; assumption).
  destruct (Hok2 eq_refl) as (Hred & Hposix & Hother).
  rewrite bind_unfold.
  destruct (create_pid_file_spec self w2) as [-> | [Hev3 Hne3]]; proj.
  - right. exists (t0 ++ t1 ++ t2), w2. repeat split.
    + rewrite !Forall_app. auto.
    + apply in_or_app. right. apply in_or_app. right. exact Hred.
    + congruence.
    + intros Hpx. rewrite <- Hf1. apply Hposix. congruence.
    + intros Hpx. rewrite <- Hp1. apply Hother. congruence.
    + cbn zeta. rewrite <- !app_assoc. reflexivity.
  - left. destruct (res (_create_pid_file self w2)) as [u| | | |];
      [destruct (Hne3 u eq_refl)| | | |]; proj;
      rewrite !Forall_app; repeat split; assumption.
Qed.

Lemma neutral_skipped (a : list event) :
  Forall (fun e => neutral e = true) a ->
  count is_exit a = 0%nat
  /\ forall s b, stop_after_exit s (a ++ b) = stop_after_exit s b.
Proof.
  induction 1 as [|e a He _ [IH1 IH2]]; [split; reflexivity|].
  split.
  - rewrite count_cons, IH1. destruct e; try discriminate; reflexivity.
  - intros s b. destruct e; try discriminate; cbn; apply IH2.
Qed.

Lemma setup_neutral (t : list event) :
  Forall (fun e => setup_event e = true) t -> Forall (fun e => neutral e = true) t.
Proof. intros H. eapply Forall_impl; [exact H|]. intros []; cbn; congruence. Qed.

(** The [finally] clause adds the removal and a log record at most. *)
Lemma run_loop_trace (self : Initd) (sc : list iteration) (w : world) :
  exists tf, trace (run_loop self sc w) = trace (main_loop sc w) ++ tf
             /\ Forall (fun e => neutral e = true) tf.
Proof.
  unfold run_loop, try_finally, bind, os_remove, log, emit.
  destruct (main_loop sc w) as [[[[]|e| | |] w1] t1]; proj;
    try (exists []; rewrite app_nil_r; split; [reflexivity|constructor]);
    destruct (fs w1 !! pid_file self); proj;
    solve [ eexists; split; [reflexivity|repeat constructor]
          | exists []; split; [reflexivity|constructor] ].
Qed.

Lemma stop_after_exit_split (t1 t2 : list event) (s : bool) :
  stop_after_exit s (t1 ++ LoopTest false :: t2) = true ->
  s = true \/ In CalledExit t1.
Proof.
  revert s. induction t1 as [|e t1 IH]; intros s; cbn [app].
  - cbn. intros [H _]%andb_prop. auto.
  - destruct e; cbn [stop_after_exit]; intros H;
      try (destruct (IH s H); [auto|right; right; assumption]).
    + destruct b.
      * destruct (IH s H); [auto|right; right; assumption].
      * apply andb_prop in H as [H _]. auto.
    + right. left. reflexivity.
Qed.

(** Two decompositions of a trace around its only action of a kind. *)
Lemma split_unique (P : event -> bool) (l1 l2 a b : list event) (x y : event) :
  l1 ++ x :: l2 = a ++ y :: b ->
  P x = true ->
  Forall (fun e => P e = false) a ->
  Forall (fun e => P e = false) b ->
  l1 = a /\ x = y /\ l2 = b.
Proof.
  intros Heq Hx Ha Hb. revert a Heq Ha.
  induction l1 as [|e l1 IH]; intros a Heq Ha.
  - destruct a as [|e' a]; cbn in Heq.
    + injection Heq as -> ->. auto.
    + injection Heq as -> _. inversion Ha; subst. congruence.
  - destruct a as [|e' a]; cbn in Heq.
    + injection Heq as -> Hl. subst b.
      apply Forall_app in Hb as [_ Hb]. inversion Hb; subst. congruence.
    + injection Heq as -> Hl. inversion Ha; subst.
      destruct (IH a Hl) as (-> & -> & ->); auto.
Qed.

Lemma str_inj (a b : Z) : Py.str a = Py.str b -> a = b.
Proof.
  unfold Py.str. intros H. apply DecimalZ.to_int_inj.
  assert (Some (Z.to_int a) = Some (Z.to_int b)) as [= ->]; [|reflexivity].
  rewrite <- !NilEmpty.isi, H. reflexivity.
Qed.

(** ** The pid file is written by the detached process *)

(** C3. In every execution of [start], a write of a file happens only
    after [become_daemon] has finished (its last action, the redirection
    of the streams, precedes the write); the file is the pid file and
    its contents are [str] of the pid of the process that goes on to run
    the loop.  On a POSIX system, where that process is a child created
    by [os.fork()] and the kernel gives a child a pid other than the
    caller's, the contents are not the pid of the process that called
    [start]. *)
Theorem pid_file_written_after_detach (self : Initd) (exit : option callback)
    (w : world) (t1 t2 : list event) (path content : string) :
  trace (start self exit w) = t1 ++ Wrote path content :: t2 ->
  path = pid_file self
  /\ content = Py.str (pid (proc (final (start self exit w))))
  /\ In (Redirected (stdout self) (stderr self)) t1
  /\ Forall (fun e => is_wrote e = false) t1
  /\ Forall (fun e => is_wrote e = false) t2
  /\ (posix w = true ->
      (forall c, In (Some c) (forks w) -> c <> pid (proc w)) ->
      content <> Py.str (pid (proc w))).
Proof.
  intros Ht.
  assert (Hsetup : forall t, Forall (fun e => setup_event e = true) t ->
                             Forall (fun e => is_wrote e = false) t).
  { intros t H. eapply Forall_impl; [exact H|]. intros []; cbn; congruence. }
  assert (Hserve : forall t, Forall (fun e => serve_event e = true) t ->
                             Forall (fun e => is_wrote e = false) t).
  { intros t H. eapply Forall_impl; [exact H|]. intros []; cbn; congruence. }
  destruct (start_shape self exit w)
    as [Hall | (ta & w3 & Hta & Hred & Hsc & Hpx & Hnpx & Heq)].
  - rewrite Ht in Hall. apply Hsetup, Forall_app in Hall as [_ Hall].
    inversion Hall; subst. discriminate.
  - rewrite Heq in Ht |- *. cbn zeta in *. proj.
    set (w4 := set_fs <[pid_file self := Py.str (pid (proc w3))]> w3) in *.
    destruct (serve_respects self exit w4) as [[Hpid _ _ _] Hev].
    unfold trace at 1 in Ht. cbn [snd] in Ht.
    destruct (split_unique is_wrote t1 t2 ta (trace (serve self exit w4))
                (Wrote path content)
                (Wrote (pid_file self) (Py.str (pid (proc w3)))) (eq_sym Ht) eq_refl
                (Hsetup _ Hta) (Hserve _ Hev)) as (-> & [= -> ->] & ->).
    rewrite Hpid. repeat split; auto.
    intros Hposix Hfresh Hstr. apply str_inj in Hstr.
    apply (Hfresh (pid (proc w3))); auto.
Qed.

(** A [start] that reaches the installation of its handler has written
    the pid file. *)
Lemma serving_implies_written (self : Initd) (exit : option callback) (w : world) :
  In (Installed Py.SIGTERM) (trace (start self exit w)) ->
  exists t1 t2 content,
    trace (start self exit w) = t1 ++ Wrote (pid_file self) content :: t2.
Proof.
  intros Hin.
  destruct (start_shape self exit w)
    as [Hall | (ta & w3 & _ & _ & _ & _ & _ & Heq)].
  - rewrite Forall_forall in Hall. apply list_elem_of_In, Hall in Hin. discriminate.
  - rewrite Heq. cbn zeta. proj. eauto.
Qed.

(** ** How often, and when, [exit()] is called *)

(** C9, as the code has it. [start] calls [exit()] once for each
    termination signal that its handler receives, so in every execution
    the number of calls is at most the number of termination signals
    delivered; and whenever the loop finds the flag cleared, a call of
    [exit()] (when a callback was given) has happened before. *)
Theorem exit_called_per_signal (self : Initd) (exit : option callback) (w : world) :
  (count is_exit (trace (start self exit w)) <= script_sigterms (script w))%nat
  /\ forall t1 t2,
       exit <> None ->
       trace (start self exit w) = t1 ++ LoopTest false :: t2 ->
       In CalledExit t1.
Proof.
  destruct (start_shape self exit w)
    as [Hall | (ta & w3 & Hta & _ & Hsc & _ & _ & Heq)].
  - apply setup_neutral in Hall. destruct (neutral_skipped _ Hall) as [Hc Hs].
    split; [lia|]. intros t1 t2 _ Ht. rewrite Ht in Hall.
    apply Forall_app in Hall as [_ Hall]. inversion Hall; subst. discriminate.
  - rewrite Heq. cbn zeta. proj.
    set (w4 := set_fs <[pid_file self := Py.str (pid (proc w3))]> w3).
    rewrite serve_unfold. cbn zeta. proj.
    set (v := set_proc (with_sigterm (TermHandler exit))
                (set_proc (with_running true) w4)).
    destruct (run_loop_trace self (script w4) v) as (tf & -> & Htf).
    destruct (neutral_skipped _ (setup_neutral _ Hta)) as [Hca Hsa].
    destruct (neutral_skipped _ Htf) as [Hcf Hsf].
    assert (Hw4 : script w4 = script w) by exact Hsc.
    split.
    + repeat (rewrite count_cons || rewrite count_app). cbn [is_exit].
      pose proof (main_loop_count (script w4) v). rewrite Hw4 in *. lia.
    + intros t1 t2 Hex Ht. destruct exit as [c|]; [|congruence].
      destruct (stop_after_exit_split t1 t2 false); [|discriminate|assumption].
      rewrite <- Ht, Hsa. cbn [stop_after_exit].
      rewrite stop_after_exit_app, (main_loop_stop_after_exit _ v c); try reflexivity.
      cbn [andb orb].
      rewrite <- (app_nil_r tf), Hsf. reflexivity.
Qed.

(** ** The loop and the exceptions of [run()] *)

(** A pass without events in which [run()] returns. *)
Lemma main_loop_returns_pass (it : iteration) (sc : list iteration) (w : world) :
  before it = [] -> during it = [] -> outcome it = Returns ->
  running (proc w) = true ->
  main_loop (it :: sc) w
  = (res (main_loop sc w), final (main_loop sc w),
     LoopTest true :: CalledRun :: trace (main_loop sc w)).
Proof.
  intros Hb Hd Ho Hr. cbn [main_loop]. rewrite Hb, Hd, Ho.
  cbn [deliver_all deliver_during].
  unfold bind, gets, emit, try_except, ret. rewrite Hr.
  destruct (main_loop sc w) as [[r2 w2] t2]. reflexivity.
Qed.

(** A pass that starts with the flag set calls [run()]. *)
Lemma main_loop_enters (it : iteration) (sc : list iteration) (w : world) :
  before it = [] -> running (proc w) = true ->
  (1 <= count is_run (trace (main_loop (it :: sc) w)))%nat.
Proof.
  intros Hb Hr. rewrite main_loop_step, Hb. cbn [deliver_all].
  unfold bind at 1, ret, loop_body. rewrite Hr. rewrite bind_unfold.
  destruct (run_once_unfold it w) as (_ & tl & Ht & _).
  destruct (res (run_once it w)); proj; rewrite Ht;
    repeat (rewrite count_cons || rewrite count_app); cbn; lia.
Qed.

(** C4, as the code has it. An exception of [run()] that is an instance
    of [Exception] is caught and logged and the loop goes on with its
    next pass; one that is not ([SystemExit], [KeyboardInterrupt]) is
    not caught and leaves the loop.  In particular, when [run()] raises
    an instance of [Exception] on its third call and no event arrives, a
    fourth call follows.  The loop returns only with the flag cleared. *)
Theorem loop_and_run_exceptions :
  (forall (it : iteration) (sc : list iteration) (w w0 w1 : world)
          (tb td : list event) (e : Py.exn),
     deliver_all (before it) w = (Ok tt, w0, tb) ->
     running (proc w0) = true ->
     deliver_all (during it) w0 = (Ok tt, w1, td) ->
     outcome it = Raises e ->
     main_loop (it :: sc) w
     = if Py.is_Exception e then
         (res (main_loop sc w1), final (main_loop sc w1),
          tb ++ LoopTest true :: CalledRun :: td
             ++ Log ERROR (exn_str e) :: trace (main_loop sc w1))
       else (Raise e, w1, tb ++ LoopTest true :: CalledRun :: td))
  /\ (forall (i1 i2 i3 i4 : iteration) (sc : list iteration) (w : world)
             (e : Py.exn),
        running (proc w) = true ->
        before i1 = [] -> during i1 = [] -> outcome i1 = Returns ->
        before i2 = [] -> during i2 = [] -> outcome i2 = Returns ->
        before i3 = [] -> during i3 = [] -> outcome i3 = Raises e ->
        Py.is_Exception e = true ->
        before i4 = [] ->
        (4 <= count is_run (trace (main_loop (i1 :: i2 :: i3 :: i4 :: sc) w)))%nat)
  /\ (forall (sc : list iteration) (w : world),
        res (main_loop sc w) = Ok tt ->
        running (proc (final (main_loop sc w))) = false).
Proof.
  split; [|split].
  - intros. eapply main_loop_raises; eassumption.
  - intros i1 i2 i3 i4 sc w e Hr Hb1 Hd1 Ho1 Hb2 Hd2 Ho2 Hb3 Hd3 Ho3 He Hb4.
    rewrite (main_loop_returns_pass i1 _ w Hb1 Hd1 Ho1 Hr). proj.
    rewrite (main_loop_returns_pass i2 _ w Hb2 Hd2 Ho2 Hr). proj.
    rewrite (main_loop_raises i3 _ w w w [] [] e); try assumption;
      try (rewrite ?Hb3, ?Hd3; reflexivity).
    rewrite He. proj.
    pose proof (main_loop_enters i4 sc w Hb4 Hr) as H4.
    set (rest := main_loop (i4 :: sc) w) in *.
    repeat (rewrite count_cons || rewrite count_app). cbn [is_run]. lia.
  - apply main_loop_returns.
Qed.

(** ** The termination handler and the escalation alarm *)








(** ** Concrete executions *)



Lemma start_already_running_witness :
  (fs (host {["daemon_command.pid" := "4711"]} {[4711]} []) !! pid_file daemon
   = Some "4711"
   /\ Py.int "4711" = Some 4711
   /\ 4711 ∈ alive (host {["daemon_command.pid" := "4711"]} {[4711]} []))
  /\ start daemon None (host {["daemon_command.pid" := "4711"]} {[4711]} [])
     = (Ok tt, host {["daemon_command.pid" := "4711"]} {[4711]} [],
        [Signalled 4711 0; Log WARNING "Daemon already running."]).
Proof.
  assert (H1 : fs (host {["daemon_command.pid" := "4711"]} {[4711]} [])
               !! pid_file daemon = Some "4711") by (vm_compute; reflexivity).
  assert (H2 : Py.int "4711" = Some 4711) by (vm_compute; reflexivity).
  assert (H3 : 4711 ∈ alive (host {["daemon_command.pid" := "4711"]} {[4711]} []))
    by (apply (bool_decide_unpack _); vm_compute; exact I).
  split; [auto|].
  exact (start_already_running daemon None _ "4711" 4711 H1 H2 H3).
Defined.

Lemma stop_without_pid_file_witness :
  fs (host ∅ ∅ []) !! pid_file daemon = None
  /\ stop daemon (host ∅ ∅ []) = (Ok tt, host ∅ ∅ [], [Print ("Stopped." +:+ nl)]).
Proof.
  assert (H1 : fs (host ∅ ∅ []) !! pid_file daemon = None) by (vm_compute; reflexivity).
  split; [exact H1|]. exact (stop_without_pid_file daemon _ H1).
Defined.



Lemma malformed_pid_file_raises_witness :
  (fs (host {["daemon_command.pid" := "12a"]} ∅ []) !! pid_file daemon = Some "12a"
   /\ Py.int "12a" = None)
  /\ start daemon None (host {["daemon_command.pid" := "12a"]} ∅ [])
     = (Raise Py.ValueError, host {["daemon_command.pid" := "12a"]} ∅ [], [])
  /\ stop daemon (host {["daemon_command.pid" := "12a"]} ∅ [])
     = (Raise Py.ValueError, host {["daemon_command.pid" := "12a"]} ∅ [], [])
  /\ status daemon (host {["daemon_command.pid" := "12a"]} ∅ [])
     = (Raise Py.ValueError, host {["daemon_command.pid" := "12a"]} ∅ [], []).
Proof.
  assert (H1 : fs (host {["daemon_command.pid" := "12a"]} ∅ [])
               !! pid_file daemon = Some "12a") by (vm_compute; reflexivity).
  assert (H2 : Py.int "12a" = None) by (vm_compute; reflexivity).
  split; [auto|].
  exact (malformed_pid_file_raises daemon None _ "12a" H1 H2).
Defined.

(** C8 fails for the code: the removal at the end of the loop raises
    when the pid file has already been deleted. *)
Lemma removal_of_absent_pid_file_raises :
  res (os_remove (pid_file daemon) (host ∅ ∅ []))
  = Raise (Py.OSErrorOn Py.ENOENT "daemon_command.pid")
  /\ res (start daemon None unlinked)
     = Raise (Py.OSErrorOn Py.ENOENT "daemon_command.pid").
Proof. split; vm_compute; reflexivity. Qed.

(** The loop left by the alarm's [SystemExit(1)] with the pid file in
    place, and left by a normal return after the file was unlinked. *)
Lemma removal_at_loop_exit_witness :
  (res (run_loop daemon [Iteration [] [SigTerm Returns; AlarmExpires] Hangs] serving)
   = Raise (Py.SystemExit 1)
   /\ fs (final (run_loop daemon
                    [Iteration [] [SigTerm Returns; AlarmExpires] Hangs] serving))
      !! pid_file daemon = None
   /\ trace (run_loop daemon
               [Iteration [] [SigTerm Returns; AlarmExpires] Hangs] serving)
      = [LoopTest true; CalledRun; Log DEBUG "Calling exit handler"; CalledExit;
         FlagCleared; Installed Py.SIGALRM; AlarmSet 5;
         Log WARNING "Could not exit gracefully.  Forcefully exiting.";
         Removed "daemon_command.pid"; Log INFO "Exiting."])
  /\ run_loop daemon
       [Iteration [] [Unlink "daemon_command.pid"; SigTerm Returns] Returns] serving
     = (Raise (Py.OSErrorOn Py.ENOENT "daemon_command.pid"),
        final (main_loop
                 [Iteration [] [Unlink "daemon_command.pid"; SigTerm Returns] Returns]
                 serving),
        [LoopTest true; CalledRun; Log DEBUG "Calling exit handler"; CalledExit;
         FlagCleared; Installed Py.SIGALRM; AlarmSet 5; LoopTest false]).
Proof.
  split.
  - rewrite (removal_at_loop_exit daemon
               [Iteration [] [SigTerm Returns; AlarmExpires] Hangs] serving).
    vm_compute. repeat split; reflexivity.
  - rewrite (removal_at_loop_exit daemon
               [Iteration [] [Unlink "daemon_command.pid"; SigTerm Returns] Returns]
               serving).
    vm_compute. reflexivity.
Defined.

(** C4 fails for the code: the exception that [run()] raises on its
    third call is neither caught nor logged, there is no fourth call,
    and the loop has ended with the flag still set and no alarm armed. *)
Lemma run_SystemExit_leaves_loop :
  res (start daemon None leaving) = Raise (Py.SystemExit 0)
  /\ count is_run (trace (start daemon None leaving)) = 3%nat
  /\ count is_error_log (trace (start daemon None leaving)) = 0%nat
  /\ running (proc (final (start daemon None leaving))) = true
  /\ alarm (proc (final (start daemon None leaving))) = None.
Proof. repeat split; vm_compute; reflexivity. Qed.

Lemma loop_and_run_exceptions_witness :
  main_loop [Iteration [] [] (Raises (Py.Other "boom")); pass] handled
  = (res (main_loop [pass] handled), final (main_loop [pass] handled),
     [] ++ LoopTest true :: CalledRun :: []
        ++ Log ERROR "boom" :: trace (main_loop [pass] handled)).
Proof.
  exact (proj1 loop_and_run_exceptions
           (Iteration [] [] (Raises (Py.Other "boom"))) [pass]
           handled handled handled [] [] (Py.Other "boom")
           eq_refl eq_refl eq_refl eq_refl).
Defined.

(** C9 fails for the code: [exit()] is called twice. *)
Lemma exit_called_twice :
  count is_exit (trace (start daemon (Some Callable) signalled_twice)) = 2%nat.
Proof. vm_compute. reflexivity. Qed.

Lemma exit_called_per_signal_witness :
  Some Callable <> None
  /\ In CalledExit
       [Forked 100 101; SetSid; ChDir "."; Umask 18; Forked 101 102;
        Redirected "/dev/null" "/dev/null"; Wrote "daemon_command.pid" "102";
        Installed 15; Log INFO "Starting"; LoopTest true; CalledRun;
        Log DEBUG "Calling exit handler"; CalledExit; FlagCleared;
        Installed 14; AlarmSet 5].
Proof.
  split; [discriminate|].
  apply (proj2 (exit_called_per_signal daemon (Some Callable)
                  (host ∅ ∅ [Iteration [] [SigTerm Returns] Returns]))
           _ [Removed "daemon_command.pid"; Log INFO "Exiting."]).
  - discriminate.
  - vm_compute. reflexivity.
Defined.

Lemma pid_file_written_after_detach_witness :
  trace (start daemon None (host ∅ ∅ [Iteration [] [SigTerm Returns] Returns]))
  = [Forked 100 101; SetSid; ChDir "."; Umask 18; Forked 101 102;
     Redirected "/dev/null" "/dev/null"]
    ++ Wrote "daemon_command.pid" "102"
       :: [Installed 15; Log INFO "Starting"; LoopTest true; CalledRun;
           FlagCleared; Installed 14; AlarmSet 5; LoopTest false;
           Removed "daemon_command.pid"; Log INFO "Exiting."]
  /\ "102" <> Py.str (pid (proc (host ∅ ∅ [Iteration [] [SigTerm Returns] Returns]))).
Proof.
  assert (H : trace (start daemon None
                       (host ∅ ∅ [Iteration [] [SigTerm Returns] Returns]))
              = [Forked 100 101; SetSid; ChDir "."; Umask 18; Forked 101 102;
                 Redirected "/dev/null" "/dev/null"]
                ++ Wrote "daemon_command.pid" "102"
                   :: [Installed 15; Log INFO "Starting"; LoopTest true; CalledRun;
                       FlagCleared; Installed 14; AlarmSet 5; LoopTest false;
                       Removed "daemon_command.pid"; Log INFO "Exiting."])
    by (vm_compute; reflexivity).
  split; [exact H|].
  destruct (pid_file_written_after_detach daemon None _ _ _ _ _ H)
    as (_ & _ & _ & _ & _ & Hne).
  apply Hne; [reflexivity|].
  intros c [Hc|[Hc|[]]]; injection Hc as <-; vm_compute; discriminate.
Defined.

(** ** The format of the pid file *)

Lemma digit_not_space (c : ascii) : Py.is_digit c = true -> Py.is_space c = false.
Proof.
  destruct c as [[] [] [] [] [] [] [] []]; vm_compute; congruence.
Qed.

Lemma uint_digits (d : Decimal.uint) :
  Forall (fun c => Py.is_digit c = true)
    (list_ascii_of_string (NilEmpty.string_of_uint d)).
Proof. induction d; cbn; constructor; auto. Qed.

Lemma lstrip_id (l : list ascii) :
  Forall (fun c => Py.is_space c = false) l -> Py.lstrip l = l.
Proof. intros [|c l' Hc _]; cbn; [reflexivity|]. rewrite Hc. reflexivity. Qed.

Lemma strip_id (l : list ascii) :
  Forall (fun c => Py.is_space c = false) l -> Py.strip l = l.
Proof.
  intros H. unfold Py.strip. rewrite (lstrip_id l H), lstrip_id.
  - apply rev_involutive.
  - apply Forall_forall. intros c Hc. rewrite Forall_forall in H. apply H.
    apply list_elem_of_In. apply list_elem_of_In in Hc. apply in_rev. exact Hc.
Qed.

Lemma digits_id (l : list ascii) (b : bool) :
  Forall (fun c => Py.is_digit c = true) l ->
  b = true \/ l <> [] ->
  Py.digits b l = Some l.
Proof.
  intros H. revert b. induction H as [|c l Hc _ IH]; intros b Hb; cbn.
  - destruct Hb as [->|Hb]; [reflexivity|congruence].
  - rewrite Hc, IH by auto. reflexivity.
Qed.

Lemma unsigned_of_uint (d : Decimal.uint) :
  d <> Decimal.Nil ->
  Py.unsigned (list_ascii_of_string (NilEmpty.string_of_uint d)) = Some (Z.of_uint d).
Proof.
  intros Hd. unfold Py.unsigned. rewrite digits_id.
  - rewrite string_of_list_ascii_of_string, NilEmpty.usu. reflexivity.
  - apply uint_digits.
  - right. destruct d; cbn; congruence.
Qed.

Lemma int_str (n : Z) : Py.int (Py.str n) = Some n.
Proof.
  assert (Hsp : forall d, Forall (fun c => Py.is_space c = false)
                            (list_ascii_of_string (NilEmpty.string_of_uint d))).
  { intros d. eapply Forall_impl; [apply uint_digits|]. apply digit_not_space. }
  assert (Hhd : forall d, d <> Decimal.Nil ->
            exists c l, list_ascii_of_string (NilEmpty.string_of_uint d) = c :: l
                        /\ Py.is_digit c = true).
  { intros d Hd. pose proof (uint_digits d) as H.
    destruct d; try congruence; cbn in *; inversion H; subst; eauto. }
  assert (Hsign : forall c, Py.is_digit c = true ->
            Ascii.eqb c "-" = false /\ Ascii.eqb c "+" = false).
  { intros c. destruct c as [[] [] [] [] [] [] [] []]; vm_compute; auto; congruence. }
  assert (Hpos : forall d, d <> Decimal.Nil ->
            Py.int (NilEmpty.string_of_uint d) = Some (Z.of_uint d)).
  { intros d Hd. unfold Py.int. rewrite strip_id by apply Hsp.
    destruct (Hhd d Hd) as (c & l & Hl & Hc).
    pose proof (unsigned_of_uint d Hd) as Hu. rewrite Hl in *.
    destruct (Hsign c Hc) as [-> ->]. exact Hu. }
  unfold Py.str. destruct n as [|p|p]; cbn [Z.to_int NilEmpty.string_of_int].
  - reflexivity.
  - rewrite Hpos by apply DecimalPos.Unsigned.to_uint_nonnil.
    unfold Z.of_uint. rewrite DecimalPos.Unsigned.of_to. reflexivity.
  - unfold Py.int. cbn [list_ascii_of_string].
    rewrite strip_id by (constructor; [reflexivity|apply Hsp]).
    cbn. rewrite unsigned_of_uint by apply DecimalPos.Unsigned.to_uint_nonnil.
    unfold Z.of_uint. rewrite DecimalPos.Unsigned.of_to. reflexivity.
Qed.

(** X1. What [str] writes for an [int], [int] reads back: the pid that
    [_create_pid_file] records is the pid that [start], [stop] and
    [status] find in the file. *)
Theorem int_of_str (n : Z) : Py.int (Py.str n) = Some n.
Proof. apply int_str. Qed.

(** ** [status] *)

(** X2. [status] only looks: whatever the pid file holds, the world is left
    as it was (a stale or malformed pid file is not removed) and the
    only signal sent is the probe. *)
Theorem status_only_looks (self : Initd) (w : world) :
  final (status self w) = w
  /\ Forall (fun e => status_event e = true) (trace (status self w)).
Proof.
  unfold status, bind, path_exists, gets, read_file, py_int, try_except, os_kill,
    print, flush, emit, ret, raise.
  destruct (bool_decide (is_Some (fs w !! pid_file self))); cbn;
    [|split; [reflexivity|repeat constructor]].
  destruct (fs w !! pid_file self) as [s|]; cbn; [|split; [reflexivity|constructor]].
  destruct (Py.int s) as [p|]; cbn; [|split; [reflexivity|constructor]].
  destruct (bool_decide (p ∈ alive w)); [|destruct (Py.fits_c_int p)]; cbn;
    split; try reflexivity; repeat constructor.
Qed.


(** X4. The pid file that [_create_pid_file] writes is understood by the
    verbs: seen from a process for which the writer is alive, [status]
    reports "Running.", a second [start] is the no-op of an instance
    that is already running, and [stop] sends the termination signal to
    the writer. *)
Theorem written_pid_file_is_found (self : Initd) (exit : option callback)
    (w v : world) :
  res (_create_pid_file self w) = Ok tt ->
  fs v = fs (final (_create_pid_file self w)) ->
  pid (proc w) ∈ alive v ->
  status self v
  = (Ok tt, v, [Signalled (pid (proc w)) 0; Print ("Running." +:+ nl)])
  /\ start self exit v
     = (Ok tt, v, [Signalled (pid (proc w)) 0; Log WARNING "Daemon already running."])
  /\ exists t, trace (stop self v)
               = Print "Stopping." :: Flush :: Signalled (pid (proc w)) Py.SIGTERM :: t.
Proof.
  intros Hok Hfs Hal.
  assert (Hf : fs v !! pid_file self = Some (Py.str (pid (proc w)))).
  { rewrite Hfs. destruct (create_pid_file_spec self w) as [-> | [_ Hne]].
    - cbn. apply lookup_insert_eq.
    - destruct (Hne tt Hok). }
  pose proof (int_str (pid (proc w))) as Hi.
  split; [|split].
  - unfold status, bind. rewrite (path_exists_some self v _ Hf).
    unfold read_file, py_int, try_except, os_kill. rewrite Hf, Hi. cbn.
    rewrite bool_decide_eq_true_2 by assumption. reflexivity.
  - unfold start, bind. rewrite (path_exists_some self v _ Hf).
    unfold read_file, py_int, try_except, os_kill. rewrite Hf, Hi. cbn.
    rewrite bool_decide_eq_true_2 by assumption. reflexivity.
  - unfold stop, bind, try_except, read_file, py_int. rewrite Hf, Hi. cbn.
    unfold os_kill. rewrite bool_decide_eq_true_2 by assumption. cbn.
    destruct (poll (pid_file self) (ticks v) v) as [[[[]| | | |] v1] t1]; cbn; eauto.
Qed.

(** ** [stop] and the pid file it waits for *)

Lemma poll_unfold (p : string) (tk : list (list env_event)) (w : world) :
  poll p tk w
  = match fs w !! p with
    | None => (Ok tt, w, [])
    | Some _ =>
        match tk with
        | [] => (Diverge, w, dot)
        | evs :: tk' =>
            (res ((deliver_all evs;; poll p tk') w),
             final ((deliver_all evs;; poll p tk') w),
             dot ++ trace ((deliver_all evs;; poll p tk') w))
        end
    end.
Proof.
  destruct tk as [|evs tk']; cbn [poll];
    unfold bind at 1, path_exists, gets;
    destruct (fs w !! p) as [s|] eqn:Hf.
  - rewrite bool_decide_eq_true_2 by eauto. reflexivity.
  - rewrite bool_decide_eq_false_2 by (intros [x Hx]; discriminate). reflexivity.
  - rewrite bool_decide_eq_true_2 by eauto.
    unfold bind at 1 2 3, print, flush, emit.
    destruct ((deliver_all evs;; poll p tk') w) as [[r1 w1] t1]. reflexivity.
  - rewrite bool_decide_eq_false_2 by (intros [x Hx]; discriminate). reflexivity.
Qed.

Lemma poll_returns (p : string) (tk : list (list env_event)) (w : world) :
  res (poll p tk w) = Ok tt -> fs (final (poll p tk w)) !! p = None.
Proof.
  revert w. induction tk as [|evs tk IH]; intros w; rewrite poll_unfold;
    destruct (fs w !! p) eqn:Hf; proj; try discriminate; auto.
  rewrite bind_unfold.
  destruct (res (deliver_all evs w)); proj; try discriminate. apply IH.
Qed.

(** [stop], case by case. *)
Lemma stop_unfold (self : Initd) (w : world) :
  stop self w
  = match fs w !! pid_file self with
    | None => (Ok tt, w, [Print ("Stopped." +:+ nl)])
    | Some s =>
        match Py.int s with
        | None => (Raise Py.ValueError, w, [])
        | Some p =>
            if bool_decide (p ∈ alive w) then
              let x := poll (pid_file self) (ticks w) w in
              (res x, final x,
               Print "Stopping." :: Flush :: Signalled p Py.SIGTERM
               :: trace x ++ match res x with Ok _ => [Print nl] | _ => [] end)
            else if Py.fits_c_int p then
              (Ok tt, set_fs (delete (pid_file self)) w,
               [Print "Stopping."; Flush;
                Log WARNING ("Could not kill process: "
                             +:+ exn_str (Py.OSError Py.ESRCH));
                Removed (pid_file self)])
            else (Raise (overflow p), w, [Print "Stopping."; Flush])
        end
    end.
Proof.
  unfold stop, bind, try_except, read_file, py_int.
  destruct (fs w !! pid_file self) as [s|] eqn:Hf; cbn; [|reflexivity].
  destruct (Py.int s) as [p|]; cbn; [|reflexivity].
  unfold os_kill.
  destruct (bool_decide (p ∈ alive w)); [|destruct (Py.fits_c_int p)]; cbn.
  - destruct (poll (pid_file self) (ticks w) w) as [[[[]| | | |] w1] t1]; cbn;
      rewrite ?app_nil_r; reflexivity.
  - unfold os_remove. rewrite Hf. reflexivity.
  - reflexivity.
Qed.

(** X5. When [stop] returns, there is no pid file: it was never there, or
    [stop] removed the stale one, or the wait saw it disappear. *)
Theorem stop_returns_without_pid_file (self : Initd) (w : world) :
  res (stop self w) = Ok tt ->
  fs (final (stop self w)) !! pid_file self = None.
Proof.
  rewrite stop_unfold.
  destruct (fs w !! pid_file self) as [s|] eqn:Hf; [|auto].
  destruct (Py.int s) as [p|]; [|discriminate].
  destruct (bool_decide (p ∈ alive w)); [|destruct (Py.fits_c_int p)].
  - cbn zeta. proj. apply poll_returns.
  - intros _. cbn. apply lookup_delete_eq.
  - discriminate.
Qed.

Lemma deliver_all_keeps (p : string) (evs : list env_event) (w : world) :
  Forall (fun ev => keeps p ev = true) evs ->
  is_Some (fs w !! p) ->
  res (deliver_all evs w) = Ok tt
  /\ is_Some (fs (final (deliver_all evs w)) !! p)
  /\ trace (deliver_all evs w) = [].
Proof.
  intros H. revert w. induction H as [|ev evs Hev _ IH]; intros w Hf.
  - cbn. auto.
  - cbn [deliver_all]. rewrite bind_unfold.
    destruct ev as [r| |q|q]; try discriminate; cbn in Hev |- *.
    + apply IH. cbn. rewrite lookup_delete_ne; [assumption|].
      intros ->. rewrite String.eqb_refl in Hev. discriminate.
    + apply IH. exact Hf.
Qed.

Lemma poll_blocks (p : string) (tk : list (list env_event)) (w : world) :
  Forall (Forall (fun ev => keeps p ev = true)) tk ->
  is_Some (fs w !! p) ->
  res (poll p tk w) = Diverge
  /\ is_Some (fs (final (poll p tk w)) !! p)
  /\ trace (poll p tk w) = dots (S (length tk)).
Proof.
  intros H. revert w. induction H as [|evs tk Hevs _ IH]; intros w Hf;
    rewrite poll_unfold; destruct Hf as [s Hs]; rewrite Hs.
  - cbn. eauto.
  - destruct (deliver_all_keeps p evs w Hevs) as (Hr & Hf' & Ht); [eauto|].
    rewrite bind_unfold, Hr, Ht. proj.
    destruct (IH _ Hf') as (H1 & H2 & H3). repeat split; auto.
    cbn [app length dots]. rewrite H3. reflexivity.
Qed.

(** X6. [stop] has no timeout of its own.  When the recorded process
    receives the termination signal and the pid file is never removed,
    [stop] sends that one signal and waits for ever, one dot per
    half second. *)
Theorem stop_waits_for_ever (self : Initd) (w : world) (s : string) (p : Z) :
  fs w !! pid_file self = Some s ->
  Py.int s = Some p ->
  p ∈ alive w ->
  Forall (Forall (fun ev => keeps (pid_file self) ev = true)) (ticks w) ->
  res (stop self w) = Diverge
  /\ trace (stop self w)
     = Print "Stopping." :: Flush :: Signalled p Py.SIGTERM
       :: dots (S (length (ticks w)))
  /\ is_Some (fs (final (stop self w)) !! pid_file self).
Proof.
  intros Hf Hi Ha Hk.
  destruct (poll_blocks (pid_file self) (ticks w) w Hk) as (H1 & H2 & H3); [eauto|].
  rewrite stop_unfold, Hf, Hi, bool_decide_eq_true_2 by assumption.
  cbn zeta. proj. rewrite H1, H3. repeat split; auto.
  do 3 f_equal. apply app_nil_r.
Qed.

Lemma poll_until_unlinked (p : string) (n : nat) (rest : list (list env_event))
    (w : world) :
  is_Some (fs w !! p) ->
  poll p (replicate n [] ++ [Unlink p] :: rest) w
  = (Ok tt, set_fs (delete p) w, dots (S n)).
Proof.
  intros [s Hs]. induction n as [|n IH]; rewrite poll_unfold, Hs; cbn [replicate app].
  - assert (Hp : (deliver_all [Unlink p];; poll p rest) w
                 = (Ok tt, set_fs (delete p) w, [])).
    { rewrite bind_unfold.
      replace (deliver_all [Unlink p] w)
        with (Ok tt, set_fs (delete p) w, @nil event) by reflexivity.
      proj. rewrite poll_unfold. cbn [fs set_fs]. rewrite lookup_delete_eq.
      reflexivity. }
    rewrite Hp. reflexivity.
  - assert (Hp : (deliver_all [];; poll p (replicate n [] ++ [Unlink p] :: rest)) w
                 = (Ok tt, set_fs (delete p) w, dots (S n))).
    { rewrite bind_unfold.
      replace (deliver_all [] w) with (Ok tt, w, @nil event) by reflexivity.
      proj. rewrite IH. reflexivity. }
    rewrite Hp. reflexivity.
Qed.

(** X7. [stop] against a live instance: it sends the termination signal,
    prints a dot and sleeps for as long as the pid file exists, and
    returns once the daemon has unlinked the file -- here during the
    poll number [n + 1]. *)
Theorem stop_waits_for_removal (self : Initd) (w : world) (s : string) (p : Z)
    (n : nat) (rest : list (list env_event)) :
  fs w !! pid_file self = Some s ->
  Py.int s = Some p ->
  p ∈ alive w ->
  ticks w = replicate n [] ++ [Unlink (pid_file self)] :: rest ->
  stop self w
  = (Ok tt, set_fs (delete (pid_file self)) w,
     Print "Stopping." :: Flush :: Signalled p Py.SIGTERM
     :: dots (S n) ++ [Print nl]).
Proof.
  intros Hf Hi Ha Ht.
  rewrite stop_unfold, Hf, Hi, bool_decide_eq_true_2 by assumption.
  rewrite Ht, poll_until_unlinked by eauto. reflexivity.
Qed.

(** ** Fatal errors of [start] before the loop *)

Lemma start_not_running (self : Initd) (exit : option callback) (w : world) :
  res (already_running self w) = Ok false ->
  start self exit w
  = (res ((change_uid self;;
           become_daemon (workdir self) (stdout self) (stderr self) (umask self);;
           _create_pid_file self;; serve self exit) w),
     final ((change_uid self;;
             become_daemon (workdir self) (stdout self) (stderr self) (umask self);;
             _create_pid_file self;; serve self exit) w),
     trace (already_running self w)
     ++ trace ((change_uid self;;
                become_daemon (workdir self) (stdout self) (stderr self) (umask self);;
                _create_pid_file self;; serve self exit) w)).
Proof.
  intros H. rewrite start_unfold, bind_unfold, H.
  destruct (already_running_respects self w) as [-> _]. reflexivity.
Qed.

(** X8. A user name that the password database does not know: [start] logs
    the error and exits with status 1 before anything is changed -- no
    fork, no pid file. *)
Theorem start_unknown_user (self : Initd) (exit : option callback) (w : world) :
  res (already_running self w) = Ok false ->
  String.eqb (user self) "" = false ->
  passwd w !! user self = None ->
  start self exit w
  = (Raise (Py.SystemExit 1), w,
     trace (already_running self w)
     ++ [Log ERROR ("User " +:+ user self +:+ " not found.")]).
Proof.
  intros Hr Hu Hp. rewrite (start_not_running self exit w Hr).
  unfold bind at 1 3 5, change_uid. rewrite Hu.
  unfold bind, try_except, getpwnam. rewrite Hp. reflexivity.
Qed.

Lemma change_uid_denied (self : Initd) (w : world) (u g : Z) :
  String.eqb (user self) "" = false ->
  passwd w !! user self = Some (u, g) ->
  uid (proc w) <> 0 ->
  g <> gid (proc w) \/ u <> uid (proc w) ->
  change_uid self w
  = (Raise (Py.SystemExit 1), w,
     (if (g =? gid (proc w))%Z then [SetGid g] else [])
     ++ [Log ERROR ("Unable to change uid and gid, error is: "
                    +:+ exn_str (Py.OSError Py.EPERM))]).
Proof.
  intros Hu Hp Hroot Hne. unfold change_uid. rewrite Hu.
  unfold bind, try_except, getpwnam, os_setgid, os_setuid. rewrite Hp. cbn.
  destruct w as [px f ro al pw fk sc tk [p u0 g0 c m io st sa a rn]]. cbn in *.
  destruct (Z.eqb_spec u0 0) as [|_]; [congruence|]. cbn.
  destruct (Z.eqb_spec g g0) as [->|Hg]; cbn; [|reflexivity].
  destruct (Z.eqb_spec u0 0) as [|_]; [congruence|]. cbn.
  destruct (Z.eqb_spec u u0) as [->|Hu']; cbn; [|reflexivity].
  destruct Hne; congruence.
Qed.

(** X9. A process that is not the superuser cannot become another user:
    [start] logs the error and exits with status 1, still under its old
    identity and before anything else is changed ([os.setgid] has been
    called when the group is already the right one). *)
Theorem start_cannot_change_user (self : Initd) (exit : option callback)
    (w : world) (u g : Z) :
  res (already_running self w) = Ok false ->
  String.eqb (user self) "" = false ->
  passwd w !! user self = Some (u, g) ->
  uid (proc w) <> 0 ->
  g <> gid (proc w) \/ u <> uid (proc w) ->
  start self exit w
  = (Raise (Py.SystemExit 1), w,
     trace (already_running self w)
     ++ (if (g =? gid (proc w))%Z then [SetGid g] else [])
     ++ [Log ERROR ("Unable to change uid and gid, error is: "
                    +:+ exn_str (Py.OSError Py.EPERM))]).
Proof.
  intros Hr Hu Hp Hroot Hne. rewrite (start_not_running self exit w Hr).
  rewrite bind_unfold, (change_uid_denied self w u g Hu Hp Hroot Hne). reflexivity.
Qed.

(** X10. The superuser drops privileges in the order group, then user, and
    goes on under the uid and gid of the configured user. *)
Theorem change_uid_as_root (self : Initd) (w : world) (u g : Z) :
  String.eqb (user self) "" = false ->
  passwd w !! user self = Some (u, g) ->
  uid (proc w) = 0 ->
  change_uid self w
  = (Ok tt, set_proc (with_uid u) (set_proc (with_gid g) w), [SetGid g; SetUid u]).
Proof.
  intros Hu Hp Hroot. unfold change_uid. rewrite Hu.
  unfold bind, try_except, getpwnam, os_setgid, os_setuid. rewrite Hp. cbn.
  rewrite Hroot. cbn. rewrite Hroot. reflexivity.
Qed.

Lemma become_daemon_fork_failure (h o e : string) (m : Z) (w : world) :
  posix w = true ->
  (forall rest, forks w = None :: rest ->
     become_daemon h o e m w
     = (Raise (Py.SystemExit 1), set_forks rest w,
        [PrintErr ("fork #1 failed: (11) Resource temporarily unavailable" +:+ nl)]))
  /\ (forall c rest, forks w = Some c :: None :: rest ->
        res (become_daemon h o e m w) = OsExit 1
        /\ trace (become_daemon h o e m w)
           = [Forked (pid (proc w)) c; SetSid; ChDir h; Umask m;
              PrintErr ("fork #2 failed: (11) Resource temporarily unavailable"
                        +:+ nl)]
        /\ fs (final (become_daemon h o e m w)) = fs w
        /\ pid (proc (final (become_daemon h o e m w))) = c).
Proof.
  intros Hpx.
  destruct w as [px f ro al pw fk sc tk pr]. cbn in Hpx. subst px.
  split.
  - intros rest Hf. cbn in Hf. subst fk. reflexivity.
  - intros c rest Hf. cbn in Hf. subst fk. repeat split.
Qed.

(** X11. A failed [os.fork()] is fatal.  When the first fork fails, [start]
    reports it on standard error and exits with status 1 in the calling
    process; when the second fails, the intermediate child reports it
    and leaves through [os._exit(1)].  In both cases no file has been
    written. *)
Theorem start_fork_failure (self : Initd) (exit : option callback) (w : world) :
  res (already_running self w) = Ok false ->
  String.eqb (user self) "" = true ->
  posix w = true ->
  (forall rest, forks w = None :: rest ->
     res (start self exit w) = Raise (Py.SystemExit 1)
     /\ trace (start self exit w)
        = trace (already_running self w)
          ++ [PrintErr ("fork #1 failed: (11) Resource temporarily unavailable" +:+ nl)]
     /\ fs (final (start self exit w)) = fs w
     /\ pid (proc (final (start self exit w))) = pid (proc w))
  /\ (forall c rest, forks w = Some c :: None :: rest ->
        res (start self exit w) = OsExit 1
        /\ trace (start self exit w)
           = trace (already_running self w)
             ++ [Forked (pid (proc w)) c; SetSid; ChDir (workdir self);
                 Umask (umask self);
                 PrintErr ("fork #2 failed: (11) Resource temporarily unavailable"
                           +:+ nl)]
        /\ fs (final (start self exit w)) = fs w
        /\ pid (proc (final (start self exit w))) = c).
Proof.
  intros Hr Hu Hpx. rewrite (start_not_running self exit w Hr). proj.
  assert (Hc : change_uid self w = (Ok tt, w, [])).
  { unfold change_uid. rewrite Hu. reflexivity. }
  rewrite bind_unfold, Hc. proj. rewrite bind_unfold.
  destruct (become_daemon_fork_failure (workdir self) (stdout self) (stderr self)
              (umask self) w Hpx) as [H1 H2].
  split.
  - intros rest Hf. rewrite (H1 rest Hf). proj. cbn [app]. repeat split.
  - intros c rest Hf. destruct (H2 c rest Hf) as (Hres & Htr & Hfs & Hpid).
    rewrite Hres. proj. cbn [app]. rewrite Htr. repeat split; assumption.
Qed.

(** ** The life of a daemon *)

Lemma prefix_before (P : event -> bool) (l1 l2 a b : list event) (x : event) :
  l1 ++ x :: l2 = a ++ b ->
  P x = true ->
  Forall (fun e => P e = false) a ->
  exists l, l1 = a ++ l.
Proof.
  intros Heq Hx Ha. revert l1 Heq.
  induction Ha as [|e a He _ IH]; intros l1 Heq; [eauto|].
  destruct l1 as [|e' l1]; cbn in Heq.
  - injection Heq as -> _. congruence.
  - injection Heq as -> Heq. destruct (IH l1 Heq) as [l ->]. eauto.
Qed.

(** X12. [run()] is not called before the process has detached, written its
    pid file and installed the handler of the termination signal: a
    [start] that fails on the way never runs the workload. *)
Theorem run_follows_pid_file (self : Initd) (exit : option callback) (w : world)
    (t1 t2 : list event) :
  trace (start self exit w) = t1 ++ CalledRun :: t2 ->
  In (Redirected (stdout self) (stderr self)) t1
  /\ In (Wrote (pid_file self) (Py.str (pid (proc (final (start self exit w)))))) t1
  /\ In (Installed Py.SIGTERM) t1.
Proof.
  intros Ht.
  destruct (start_shape self exit w)
    as [Hall | (ta & w3 & Hta & Hred & _ & _ & _ & Heq)].
  - rewrite Ht in Hall. apply Forall_app in Hall as [_ Hall].
    inversion Hall; subst. discriminate.
  - set (w4 := set_fs <[pid_file self := Py.str (pid (proc w3))]> w3) in *.
    set (v := set_proc (with_sigterm (TermHandler exit))
                (set_proc (with_running true) w4)).
    assert (Htr : trace (start self exit w)
                  = (ta ++ [Wrote (pid_file self) (Py.str (pid (proc w3)));
                            Installed Py.SIGTERM; Log INFO "Starting"])
                    ++ trace (run_loop self (script w4) v)).
    { rewrite Heq. cbn zeta. proj. rewrite serve_unfold. cbn zeta. proj.
      rewrite <- app_assoc. reflexivity. }
    assert (Hpid : pid (proc (final (start self exit w))) = pid (proc w3)).
    { rewrite Heq. cbn zeta. proj.
      destruct (serve_respects self exit w4) as [[Hpid _ _ _] _]. exact Hpid. }
    rewrite Hpid. rewrite Htr in Ht.
    destruct (prefix_before is_run _ _ _ _ _ (eq_sym Ht) eq_refl) as [l ->].
    { apply Forall_app. split; [|repeat constructor].
      eapply Forall_impl; [exact Hta|]. intros []; cbn; congruence. }
    repeat split; apply in_or_app; left; apply in_or_app.
    + left. exact Hred.
    + right. left. reflexivity.
    + right. right. left. reflexivity.
Qed.

Lemma run_loop_returns (self : Initd) (sc : list iteration) (w : world) :
  res (run_loop self sc w) = Ok tt ->
  fs (final (run_loop self sc w)) !! pid_file self = None.
Proof.
  unfold run_loop, try_finally, bind, os_remove, log, emit.
  destruct (main_loop sc w) as [[[[]|e| | |] w1] t1]; proj; try discriminate;
    destruct (fs w1 !! pid_file self); proj; try discriminate;
    intros _; cbn; apply lookup_delete_eq.
Qed.

(** X13. A daemon that has served and whose [start] returns has removed its
    pid file. *)
Theorem served_start_removes_pid_file (self : Initd) (exit : option callback)
    (w : world) :
  res (start self exit w) = Ok tt ->
  In (Installed Py.SIGTERM) (trace (start self exit w)) ->
  fs (final (start self exit w)) !! pid_file self = None.
Proof.
  intros Hr Hin.
  destruct (start_shape self exit w)
    as [Hall | (ta & w3 & _ & _ & _ & _ & _ & Heq)].
  - rewrite Forall_forall in Hall. apply list_elem_of_In, Hall in Hin. discriminate.
  - rewrite Heq in Hr |- *. cbn zeta in *. proj.
    rewrite serve_unfold in Hr |- *. cbn zeta in *. proj.
    apply run_loop_returns. exact Hr.
Qed.

(** Once the flag is cleared the loop ends at its next test, whatever
    the rest of the script holds. *)
Lemma main_loop_stopped (sc : list iteration) (w : world) :
  running (proc w) = false ->
  match sc with [] => True | it :: _ => before it = [] end ->
  main_loop sc w = (Ok tt, w, [LoopTest false]).
Proof.
  intros Hr Hb. destruct sc as [|it sc]; cbn [main_loop].
  - unfold bind, gets, emit. rewrite Hr. reflexivity.
  - rewrite Hb. cbn [deliver_all]. unfold bind, gets, emit, ret. rewrite Hr.
    reflexivity.
Qed.

(** X14. A graceful stop.  One termination signal arrives while [run()]
    executes; [exit()] is called (when there is one) and returns, [run()]
    returns, and the loop ends at its next test: [run()] is not called
    again, the pid file is removed and [start]'s loop returns normally,
    with the alarm still armed. *)
Theorem graceful_stop (self : Initd) (exit : option callback) (it : iteration)
    (sc : list iteration) (w : world) :
  sigterm (proc w) = TermHandler exit ->
  running (proc w) = true ->
  before it = [] -> during it = [SigTerm Returns] -> outcome it = Returns ->
  match sc with [] => True | next :: _ => before next = [] end ->
  is_Some (fs w !! pid_file self) ->
  run_loop self (it :: sc) w
  = (Ok tt,
     set_fs (delete (pid_file self))
       (set_proc (with_alarm (Some 5))
          (set_proc (with_sigalrm AlrmHandler)
             (set_proc (with_running false) w))),
     LoopTest true :: CalledRun
     :: match exit with
        | Some _ => [Log DEBUG "Calling exit handler"; CalledExit]
        | None => []
        end
     ++ [FlagCleared; Installed Py.SIGALRM; AlarmSet 5; LoopTest false;
         Removed (pid_file self); Log INFO "Exiting."]).
Proof.
  intros Hs Hr Hb Hd Ho Hnext [s Hf].
  set (w' := set_proc (with_alarm (Some 5))
               (set_proc (with_sigalrm AlrmHandler)
                  (set_proc (with_running false) w))).
  assert (Hh : cb_term_handler exit Returns w
               = (Ok tt, w',
                  match exit with
                  | Some _ => [Log DEBUG "Calling exit handler"; CalledExit]
                  | None => []
                  end ++ [FlagCleared; Installed Py.SIGALRM; AlarmSet 5])).
  { destruct exit; reflexivity. }
  assert (Hloop : main_loop (it :: sc) w
                  = (Ok tt, w',
                     LoopTest true :: CalledRun
                     :: match exit with
                        | Some _ => [Log DEBUG "Calling exit handler"; CalledExit]
                        | None => []
                        end
                     ++ [FlagCleared; Installed Py.SIGALRM; AlarmSet 5;
                         LoopTest false])).
  { assert (Hd1 : deliver_all [SigTerm Returns] w
                  = (Ok tt, w',
                     match exit with
                     | Some _ => [Log DEBUG "Calling exit handler"; CalledExit]
                     | None => []
                     end ++ [FlagCleared; Installed Py.SIGALRM; AlarmSet 5])).
    { cbn [deliver_all deliver]. unfold bind, gets, ret. rewrite Hs, Hh.
      rewrite app_nil_r. reflexivity. }
    rewrite main_loop_step, Hb. cbn [deliver_all].
    unfold bind at 1, ret, loop_body. rewrite Hr.
    rewrite bind_unfold.
    assert (Hrun : run_once it w
                   = (Ok tt, w',
                      CalledRun
                      :: match exit with
                         | Some _ => [Log DEBUG "Calling exit handler"; CalledExit]
                         | None => []
                         end ++ [FlagCleared; Installed Py.SIGALRM; AlarmSet 5])).
    { unfold run_once, try_except. rewrite Hd, Ho.
      unfold bind at 1, emit.
      rewrite bind_unfold, (deliver_during_ok (catches it) _ _ _ _ Hd1). proj.
      unfold ret. rewrite app_nil_r. reflexivity. }
    rewrite Hrun. proj. rewrite (main_loop_stopped sc w' eq_refl Hnext). proj.
    cbn [app]. rewrite <- app_assoc. reflexivity. }
  unfold run_loop, try_finally. rewrite Hloop.
  unfold bind, os_remove, log, emit.
  replace (fs w' !! pid_file self) with (Some s) by (rewrite <- Hf; reflexivity).
  cbn. rewrite <- !app_assoc. reflexivity.
Qed.

(** X15. Without [os.fork()] ([os.name] is not ['posix']) the process that
    runs the loop is the caller itself, and the pid file holds the pid of
    the process that called [start]. *)
Theorem pid_file_without_fork (self : Initd) (exit : option callback) (w : world)
    (t1 t2 : list event) (path content : string) :
  posix w = false ->
  trace (start self exit w) = t1 ++ Wrote path content :: t2 ->
  content = Py.str (pid (proc w))
  /\ pid (proc (final (start self exit w))) = pid (proc w).
Proof.
  intros Hpx Ht.
  destruct (start_shape self exit w)
    as [Hall | (ta & w3 & Hta & _ & _ & _ & Hnpx & Heq)].
  - rewrite Ht in Hall. apply Forall_app in Hall as [_ Hall].
    inversion Hall; subst. discriminate.
  - rewrite Heq in Ht |- *. cbn zeta in *. proj.
    set (w4 := set_fs <[pid_file self := Py.str (pid (proc w3))]> w3) in *.
    destruct (serve_respects self exit w4) as [[Hpid _ _ _] Hev].
    unfold trace at 1 in Ht. cbn [snd] in Ht.
    assert (Ha : Forall (fun e => is_wrote e = false) ta).
    { eapply Forall_impl; [exact Hta|]. intros []; cbn; congruence. }
    assert (Hb : Forall (fun e => is_wrote e = false) (trace (serve self exit w4))).
    { eapply Forall_impl; [exact Hev|]. intros []; cbn; congruence. }
    destruct (split_unique is_wrote t1 t2 ta _ _ _ (eq_sym Ht) eq_refl Ha Hb)
      as (_ & [= _ ->] & _).
    rewrite Hpid. cbn. rewrite (Hnpx Hpx). auto.
Qed.

(** ** Writing the pid file *)

(** X16. [_create_pid_file] replaces whatever the pid file held: reading the
    file back with [int()], as the verbs do, gives the pid of the
    process that wrote it. *)
Theorem pid_file_round_trip (self : Initd) (w : world) :
  pid_file self ∉ readonly w ->
  res ((_create_pid_file self;; s <- read_file (pid_file self);; py_int s) w)
  = Ok (pid (proc w))
  /\ fs (final (_create_pid_file self w)) !! pid_file self = Some (Py.str (pid (proc w)))
  /\ forall q, q <> pid_file self ->
       fs (final (_create_pid_file self w)) !! q = fs w !! q.
Proof.
  intros Hro.
  assert (H : _create_pid_file self w
              = (Ok tt, set_fs <[pid_file self := Py.str (pid (proc w))]> w,
                 [Wrote (pid_file self) (Py.str (pid (proc w)))])).
  { unfold _create_pid_file, try_except, bind, os_getpid, gets, write_file.
    rewrite bool_decide_eq_false_2 by assumption. reflexivity. }
  rewrite bind_unfold, H. proj. split; [|split].
  - unfold bind, read_file, py_int. cbn [fs set_fs].
    rewrite lookup_insert_eq, int_str. reflexivity.
  - cbn. apply lookup_insert_eq.
  - intros q Hq. cbn. apply lookup_insert_ne. congruence.
Qed.

Lemma change_uid_readonly (self : Initd) (w : world) :
  readonly (final (change_uid self w)) = readonly w.
Proof.
  unfold change_uid, bind, try_except, getpwnam, os_setgid, os_setuid,
    log, emit, sys_exit, raise, ret.
  destruct w as [px f ro al pw fk sc tk [p u g c m io st sa a rn]]. cbn.
  destruct (String.eqb (user self) ""); cbn; [reflexivity|].
  destruct (pw !! user self) as [[pu pg]|]; cbn; [|reflexivity].
  destruct ((u =? 0)%Z || (pg =? g)%Z); cbn; [|reflexivity].
  destruct ((u =? 0)%Z || (pu =? u)%Z); reflexivity.
Qed.

Lemma open_append_readonly (p : string) (w : world) :
  exists w', open_append p w = (Ok tt, w', []) /\ readonly w' = readonly w.
Proof.
  unfold open_append, modify.
  destruct (String.eqb p "/dev/null"); [|destruct (fs w !! p)];
    eexists; split; reflexivity.
Qed.

Lemma become_daemon_readonly (h o e : string) (m : Z) (w : world) :
  readonly (final (become_daemon h o e m w)) = readonly w.
Proof.
  assert (Ho : forall p W, exists w',
             (if String.eqb p "" then ret tt else open_append p) W
             = (Ok tt, w', []) /\ readonly w' = readonly W).
  { intros p W. destruct (String.eqb p ""); [eexists; split; eauto|].
    apply open_append_readonly. }
  destruct w as [px f ro al pw fk sc tk pr].
  unfold become_daemon, bind at 1, gets. cbn [posix].
  destruct px.
  - unfold become_daemon_posix, os_fork, os_setsid, os_chdir, os_umask,
      try_except, bind, emit, modify, sys_exit, os__exit, raise, ret.
    cbn [forks].
    destruct fk as [|[c1|] [|[c2|] l2]]; cbn; try reflexivity.
    repeat match goal with
      | |- context [open_append ?p ?W] =>
          let w' := fresh "w'" in
          destruct (open_append_readonly p W) as (w' & -> & ?)
      end.
    cbn in *. congruence.
  - unfold become_daemon_other, os_chdir, os_umask, bind, emit, modify.
    cbn.
    repeat match goal with
      | |- context [(if String.eqb ?p "" then ret tt else open_append ?p) ?W] =>
          let w' := fresh "w'" in
          destruct (Ho p W) as (w' & -> & ?)
      end.
    cbn in *. congruence.
Qed.

(** X17. A pid file that cannot be written is fatal.  [start] then performs
    no action but those of its set-up (no write, no handler, no call of
    [run()]) and does not return normally, unless it found an instance
    already running; when it gets as far as [_create_pid_file], that
    function logs twice and exits with status 1. *)
Theorem start_unwritable_pid_file (self : Initd) (exit : option callback)
    (w : world) :
  pid_file self ∈ readonly w ->
  Forall (fun e => setup_event e = true) (trace (start self exit w))
  /\ (res (start self exit w) = Ok tt -> res (already_running self w) = Ok true)
  /\ _create_pid_file self w
     = (Raise (Py.SystemExit 1), w,
        [Log ERROR (exn_str (Py.OSErrorOn Py.EACCES (pid_file self)));
         Log ERROR "Failed to write to pid file, exiting now."]).
Proof.
  intros Hro.
  assert (Hcreate : forall v, readonly v = readonly w ->
            _create_pid_file self v
            = (Raise (Py.SystemExit 1), v,
               [Log ERROR (exn_str (Py.OSErrorOn Py.EACCES (pid_file self)));
                Log ERROR "Failed to write to pid file, exiting now."])).
  { intros v Hv.
    unfold _create_pid_file, try_except, bind, os_getpid, gets, write_file.
    rewrite bool_decide_eq_true_2 by (rewrite Hv; assumption). reflexivity. }
  split; [|split; [|apply Hcreate; reflexivity]].
  - destruct (start_shape self exit w)
      as [Hall | (ta & w3 & _ & _ & _ & _ & _ & Heq)]; [exact Hall|].
    exfalso.
    assert (Hin : In (Wrote (pid_file self) (Py.str (pid (proc w3))))
                    (trace (start self exit w))).
    { rewrite Heq. cbn zeta. proj. apply in_or_app. right. left. reflexivity. }
    clear Heq. revert Hin.
    rewrite start_unfold, bind_unfold.
    destruct (already_running_respects self w) as [Hw0 Hev0]. rewrite Hw0.
    assert (Hno : forall t, Forall (fun e => setup_event e = true) t ->
                    ~ In (Wrote (pid_file self) (Py.str (pid (proc w3)))) t).
    { intros t Ht Hin. rewrite Forall_forall in Ht.
      apply list_elem_of_In, Ht in Hin. discriminate. }
    destruct (res (already_running self w)) as [[|]| | | |]; proj;
      try (apply Hno; assumption).
    { apply Hno. apply Forall_app. split; [exact Hev0|repeat constructor]. }
    rewrite bind_unfold.
    destruct (change_uid_respects self w) as [_ Hev1].
    pose proof (change_uid_readonly self w) as Hro1.
    destruct (res (change_uid self w)); proj;
      try (apply Hno; apply Forall_app; split; assumption).
    rewrite bind_unfold.
    destruct (become_daemon_spec (workdir self) (stdout self) (stderr self)
                (umask self) (final (change_uid self w))) as (Hev2 & _ & _).
    pose proof (become_daemon_readonly (workdir self) (stdout self) (stderr self)
                  (umask self) (final (change_uid self w))) as Hro2.
    destruct (res (become_daemon _ _ _ _ _)); proj;
      try (apply Hno; rewrite !Forall_app; repeat split; assumption).
    rewrite bind_unfold, Hcreate by congruence. proj.
    apply Hno. rewrite !Forall_app. repeat split; try assumption.
    repeat constructor.
  - rewrite start_unfold, bind_unfold.
    destruct (already_running_respects self w) as [Hw0 _]. rewrite Hw0.
    destruct (res (already_running self w)) as [[|]| | | |]; proj;
      try discriminate; [reflexivity|].
    rewrite bind_unfold.
    pose proof (change_uid_readonly self w) as Hro1.
    destruct (res (change_uid self w)); proj; try discriminate.
    rewrite bind_unfold.
    pose proof (become_daemon_readonly (workdir self) (stdout self) (stderr self)
                  (umask self) (final (change_uid self w))) as Hro2.
    destruct (res (become_daemon _ _ _ _ _)); proj; try discriminate.
    rewrite bind_unfold, Hcreate by congruence. proj. discriminate.
Qed.

(** ** Further concrete executions *)


Lemma written_pid_file_is_found_witness :
  (res (_create_pid_file daemon (host ∅ ∅ [])) = Ok tt
   /\ 100 ∈ alive (host {["daemon_command.pid" := "100"]} {[100]} []))
  /\ status daemon (host {["daemon_command.pid" := "100"]} {[100]} [])
     = (Ok tt, host {["daemon_command.pid" := "100"]} {[100]} [],
        [Signalled 100 0; Print ("Running." +:+ nl)]).
Proof.
  assert (H1 : res (_create_pid_file daemon (host ∅ ∅ [])) = Ok tt)
    by (vm_compute; reflexivity).
  assert (H2 : fs (host {["daemon_command.pid" := "100"]} {[100]} [])
               = fs (final (_create_pid_file daemon (host ∅ ∅ []))))
    by (vm_compute; reflexivity).
  assert (H3 : pid (proc (host ∅ ∅ []))
               ∈ alive (host {["daemon_command.pid" := "100"]} {[100]} []))
    by (apply (bool_decide_unpack _); vm_compute; exact I).
  split; [split; assumption|].
  exact (proj1 (written_pid_file_is_found daemon None _ _ H1 H2 H3)).
Defined.

Lemma stop_returns_without_pid_file_witness :
  res (stop daemon (host {["daemon_command.pid" := "4711"]} ∅ [])) = Ok tt
  /\ fs (final (stop daemon (host {["daemon_command.pid" := "4711"]} ∅ [])))
     !! pid_file daemon = None.
Proof.
  assert (H : res (stop daemon (host {["daemon_command.pid" := "4711"]} ∅ [])) = Ok tt)
    by (vm_compute; reflexivity).
  split; [exact H|]. exact (stop_returns_without_pid_file daemon _ H).
Defined.

Lemma stop_waits_for_ever_witness :
  res (stop daemon (waiting [[]; [ProcGone 4711]])) = Diverge
  /\ trace (stop daemon (waiting [[]; [ProcGone 4711]]))
     = Print "Stopping." :: Flush :: Signalled 4711 Py.SIGTERM :: dots 3.
Proof.
  assert (H1 : fs (waiting [[]; [ProcGone 4711]]) !! pid_file daemon = Some "4711")
    by (vm_compute; reflexivity).
  assert (H2 : Py.int "4711" = Some 4711) by (vm_compute; reflexivity).
  assert (H3 : 4711 ∈ alive (waiting [[]; [ProcGone 4711]]))
    by (apply (bool_decide_unpack _); vm_compute; exact I).
  assert (H4 : Forall (Forall (fun ev => keeps (pid_file daemon) ev = true))
                 (ticks (waiting [[]; [ProcGone 4711]])))
    by (repeat constructor).
  destruct (stop_waits_for_ever daemon _ "4711" 4711 H1 H2 H3 H4) as (Ha & Hb & _).
  split; [exact Ha|exact Hb].
Defined.

Lemma stop_waits_for_removal_witness :
  stop daemon (waiting [[]; []; [Unlink "daemon_command.pid"]])
  = (Ok tt,
     set_fs (delete "daemon_command.pid")
       (waiting [[]; []; [Unlink "daemon_command.pid"]]),
     Print "Stopping." :: Flush :: Signalled 4711 Py.SIGTERM
     :: dots 3 ++ [Print nl]).
Proof.
  assert (H1 : fs (waiting [[]; []; [Unlink "daemon_command.pid"]])
               !! pid_file daemon = Some "4711") by (vm_compute; reflexivity).
  assert (H2 : Py.int "4711" = Some 4711) by (vm_compute; reflexivity).
  assert (H3 : 4711 ∈ alive (waiting [[]; []; [Unlink "daemon_command.pid"]]))
    by (apply (bool_decide_unpack _); vm_compute; exact I).
  exact (stop_waits_for_removal daemon _ "4711" 4711 2 [] H1 H2 H3 eq_refl).
Defined.

Lemma start_unknown_user_witness :
  start as_www None (host ∅ ∅ [])
  = (Raise (Py.SystemExit 1), host ∅ ∅ [], [Log ERROR "User www not found."]).
Proof.
  assert (H1 : res (already_running as_www (host ∅ ∅ [])) = Ok false)
    by (vm_compute; reflexivity).
  assert (H2 : passwd (host ∅ ∅ []) !! user as_www = None)
    by (vm_compute; reflexivity).
  exact (start_unknown_user as_www None _ H1 eq_refl H2).
Defined.

Lemma start_cannot_change_user_witness :
  res (start as_www None (with_users shell)) = Raise (Py.SystemExit 1)
  /\ final (start as_www None (with_users shell)) = with_users shell.
Proof.
  assert (H1 : res (already_running as_www (with_users shell)) = Ok false)
    by (vm_compute; reflexivity).
  assert (H2 : passwd (with_users shell) !! user as_www = Some (33, 33))
    by (vm_compute; reflexivity).
  assert (H3 : uid (proc (with_users shell)) <> 0) by (vm_compute; discriminate).
  assert (H4 : 33 <> gid (proc (with_users shell))
               \/ 33 <> uid (proc (with_users shell)))
    by (left; vm_compute; discriminate).
  rewrite (start_cannot_change_user as_www None _ 33 33 H1 eq_refl H2 H3 H4).
  split; reflexivity.
Defined.

Lemma change_uid_as_root_witness :
  change_uid as_www (with_users root_shell)
  = (Ok tt, set_proc (with_uid 33) (set_proc (with_gid 33) (with_users root_shell)),
     [SetGid 33; SetUid 33]).
Proof.
  assert (H2 : passwd (with_users root_shell) !! user as_www = Some (33, 33))
    by (vm_compute; reflexivity).
  exact (change_uid_as_root as_www _ 33 33 eq_refl H2 eq_refl).
Defined.

Lemma start_fork_failure_witness :
  res (start daemon None (forking true [None] [])) = Raise (Py.SystemExit 1)
  /\ fs (final (start daemon None (forking true [None] [])))
     = fs (forking true [None] []).
Proof.
  assert (H1 : res (already_running daemon (forking true [None] [])) = Ok false)
    by (vm_compute; reflexivity).
  destruct (proj1 (start_fork_failure daemon None _ H1 eq_refl eq_refl) [] eq_refl)
    as (Ha & _ & Hb & _).
  split; [exact Ha|exact Hb].
Defined.

Lemma run_follows_pid_file_witness :
  In (Wrote "daemon_command.pid" "102")
    [Forked 100 101; SetSid; ChDir "."; Umask 18; Forked 101 102;
     Redirected "/dev/null" "/dev/null"; Wrote "daemon_command.pid" "102";
     Installed 15; Log INFO "Starting"; LoopTest true]
  /\ In (Installed Py.SIGTERM)
       [Forked 100 101; SetSid; ChDir "."; Umask 18; Forked 101 102;
        Redirected "/dev/null" "/dev/null"; Wrote "daemon_command.pid" "102";
        Installed 15; Log INFO "Starting"; LoopTest true].
Proof.
  assert (H : trace (start daemon None (host ∅ ∅ [Iteration [] [SigTerm Returns] Returns]))
              = [Forked 100 101; SetSid; ChDir "."; Umask 18; Forked 101 102;
                 Redirected "/dev/null" "/dev/null"; Wrote "daemon_command.pid" "102";
                 Installed 15; Log INFO "Starting"; LoopTest true]
                ++ CalledRun
                   :: [FlagCleared; Installed 14; AlarmSet 5; LoopTest false;
                       Removed "daemon_command.pid"; Log INFO "Exiting."])
    by (vm_compute; reflexivity).
  destruct (run_follows_pid_file daemon None _ _ _ H) as (_ & Ha & Hb).
  split; [exact Ha|exact Hb].
Defined.

Lemma served_start_removes_pid_file_witness :
  res (start daemon None (host ∅ ∅ [Iteration [] [SigTerm Returns] Returns])) = Ok tt
  /\ fs (final (start daemon None (host ∅ ∅ [Iteration [] [SigTerm Returns] Returns])))
     !! pid_file daemon = None.
Proof.
  assert (H1 : res (start daemon None
                      (host ∅ ∅ [Iteration [] [SigTerm Returns] Returns])) = Ok tt)
    by (vm_compute; reflexivity).
  assert (H2 : In (Installed Py.SIGTERM)
                 (trace (start daemon None
                           (host ∅ ∅ [Iteration [] [SigTerm Returns] Returns])))).
  { vm_compute. do 7 right. left. reflexivity. }
  split; [exact H1|]. exact (served_start_removes_pid_file daemon None _ H1 H2).
Defined.

Lemma graceful_stop_witness :
  res (run_loop daemon [Iteration [] [SigTerm Returns] Returns; pass] serving) = Ok tt
  /\ count is_run
       (trace (run_loop daemon [Iteration [] [SigTerm Returns] Returns; pass] serving))
     = 1%nat.
Proof.
  assert (H : is_Some (fs serving !! pid_file daemon))
    by (exists "102"; vm_compute; reflexivity).
  rewrite (graceful_stop daemon (Some Callable)
             (Iteration [] [SigTerm Returns] Returns) [pass] serving
             eq_refl eq_refl eq_refl eq_refl eq_refl eq_refl H).
  split; reflexivity.
Defined.

Lemma pid_file_without_fork_witness :
  trace (start daemon None (forking false [] [Iteration [] [SigTerm Returns] Returns]))
  = [ChDir "."; Umask 18; Redirected "/dev/null" "/dev/null"]
    ++ Wrote "daemon_command.pid" "100"
       :: [Installed 15; Log INFO "Starting"; LoopTest true; CalledRun;
           FlagCleared; Installed 14; AlarmSet 5; LoopTest false;
           Removed "daemon_command.pid"; Log INFO "Exiting."]
  /\ "100" = Py.str (pid (proc (forking false [] [Iteration [] [SigTerm Returns] Returns]))).
Proof.
  assert (H : trace (start daemon None
                       (forking false [] [Iteration [] [SigTerm Returns] Returns]))
              = [ChDir "."; Umask 18; Redirected "/dev/null" "/dev/null"]
                ++ Wrote "daemon_command.pid" "100"
                   :: [Installed 15; Log INFO "Starting"; LoopTest true; CalledRun;
                       FlagCleared; Installed 14; AlarmSet 5; LoopTest false;
                       Removed "daemon_command.pid"; Log INFO "Exiting."])
    by (vm_compute; reflexivity).
  split; [exact H|].
  exact (proj1 (pid_file_without_fork daemon None
                  (forking false [] [Iteration [] [SigTerm Returns] Returns])
                  _ _ _ _ eq_refl H)).
Defined.

Lemma pid_file_round_trip_witness :
  (pid_file daemon ∉ readonly (host {["daemon_command.pid" := "stale"]} ∅ []))
  /\ res ((_create_pid_file daemon;; s <- read_file (pid_file daemon);; py_int s)
            (host {["daemon_command.pid" := "stale"]} ∅ []))
     = Ok 100.
Proof.
  assert (H : pid_file daemon
              ∉ readonly (host {["daemon_command.pid" := "stale"]} ∅ []))
    by (apply (bool_decide_unpack _); vm_compute; exact I).
  split; [exact H|]. exact (proj1 (pid_file_round_trip daemon _ H)).
Defined.

Lemma start_unwritable_pid_file_witness :
  pid_file daemon ∈ readonly sealed
  /\ Forall (fun e => setup_event e = true) (trace (start daemon None sealed))
  /\ res (start daemon None sealed) = Raise (Py.SystemExit 1).
Proof.
  assert (H : pid_file daemon ∈ readonly sealed)
    by (apply (bool_decide_unpack _); vm_compute; exact I).
  split; [exact H|]. split.
  - exact (proj1 (start_unwritable_pid_file daemon None sealed H)).
  - vm_compute. reflexivity.
Defined.
